(** * NutriBin-CRON: the scheduled database-backup service

    A shallow embedding of
    [src/Backend/src/services/backup/scheduled-backup.service.ts]
    (class [ScheduledBackupService]) together with the properties its
    specification states about it.

    Layout:
    - [JsTime]: the time values the service handles ([Date] objects,
      [toISOString], and the [toLocaleString] call behind [formatGMT8]);
    - the service's world (environment, scheduler registry, job objects,
      console, collaborators) and a state-and-exception monad over it;
    - the methods of the class and the cron callback;
    - the theorems. *)

From Stdlib Require Import ZArith Lia String Ascii List Bool.
From stdpp Require Import base gmap list strings.

Local Open Scope Z_scope.

(* ===================================================================== *)
(** * Exceptions                                                          *)
(* ===================================================================== *)

(** A thrown JavaScript value: the error's class name and its message. *)
Record Exn : Type := mkExn { exn_name : string; exn_message : string }.

(** The outcome of an expression that may throw; for an awaited promise,
    fulfilment and rejection. *)
Inductive result (A : Type) : Type :=
| Ok (a : A)
| Throw (e : Exn).

Arguments Ok {A} a.
Arguments Throw {A} e.

Definition TypeError (msg : string) : Exn := mkExn "TypeError" msg.
Definition RangeError (msg : string) : Exn := mkExn "RangeError" msg.
Definition Error (msg : string) : Exn := mkExn "Error" msg.

(* ===================================================================== *)
(** * Time values                                                         *)
(* ===================================================================== *)

Module JsTime.

(** A JavaScript [Date]: a time value in milliseconds since the epoch, or
    the invalid date (time value NaN). *)
Inductive JSDate : Type :=
| ValidDate (ms : Z)
| InvalidDate.

Definition msPerSecond : Z := 1000.
Definition msPerMinute : Z := 60000.
Definition msPerHour : Z := 3600000.
Definition msPerDay : Z := 86400000.

(** [Day(t)] and the time-of-day components of ECMA-262. [Z.div] and
    [Z.modulo] round towards minus infinity, as the standard's [floor]
    and [modulo] do. *)
Definition Day (t : Z) : Z := t / msPerDay.

Definition HourFromTime (t : Z) : Z := (t / msPerHour) mod 24.
Definition MinFromTime (t : Z) : Z := (t / msPerMinute) mod 60.
Definition SecFromTime (t : Z) : Z := (t / msPerSecond) mod 60.
Definition msFromTime (t : Z) : Z := t mod msPerSecond.

(** A calendar date of the proleptic Gregorian calendar; [cd_month] is
    1-based. *)
Record CivilDate : Type := mkCivil { cd_year : Z; cd_month : Z; cd_day : Z }.

(** Day number (days since 1970-01-01) to calendar date. The year is cut
    into 400-year eras of 146097 days that start on March 1st. *)
Definition civil_from_days (z : Z) : CivilDate :=
  let z' := z + 719468 in
  let era := z' / 146097 in
  let doe := z' - era * 146097 in
  let yoe := (doe - doe / 1460 + doe / 36524 - doe / 146096) / 365 in
  let doy := doe - (365 * yoe + yoe / 4 - yoe / 100) in
  let mp := (5 * doy + 2) / 153 in
  let d := doy - (153 * mp + 2) / 5 + 1 in
  let m := if mp <? 10 then mp + 3 else mp - 9 in
  let y := yoe + era * 400 in
  mkCivil (if m <=? 2 then y + 1 else y) m d.

(** Calendar date to day number ([MakeDay] of ECMA-262 for in-range
    months and days). *)
Definition days_from_civil (c : CivilDate) : Z :=
  let y := if cd_month c <=? 2 then cd_year c - 1 else cd_year c in
  let era := y / 400 in
  let yoe := y - era * 400 in
  let mp := if cd_month c <=? 2 then cd_month c + 9 else cd_month c - 3 in
  let doy := (153 * mp + 2) / 5 + cd_day c - 1 in
  let doe := yoe * 365 + yoe / 4 - yoe / 100 + doy in
  era * 146097 + doe - 719468.

Definition YearFromTime (t : Z) : Z := cd_year (civil_from_days (Day t)).
Definition MonthFromTime (t : Z) : Z := cd_month (civil_from_days (Day t)).
Definition DateFromTime (t : Z) : Z := cd_day (civil_from_days (Day t)).

(** ** Decimal numerals *)

Definition digit_char (d : Z) : ascii :=
  ascii_of_nat (48 + Z.to_nat (d mod 10)).

Fixpoint decimal_go (fuel : nat) (n : Z) (acc : string) : string :=
  match fuel with
  | O => acc
  | S fuel' =>
      let acc' := String (digit_char n) acc in
      if n / 10 =? 0 then acc' else decimal_go fuel' (n / 10) acc'
  end.

(** The decimal numeral of a natural number, without leading zeros. *)
Definition decimal (n : Z) : string :=
  decimal_go (S (Z.to_nat (Z.log2 n))) n "".

(** The last [w] decimal digits of [n], zero-padded. *)
Fixpoint pad_digits (w : nat) (n : Z) (acc : string) : string :=
  match w with
  | O => acc
  | S w' => pad_digits w' (n / 10) (String (digit_char n) acc)
  end.

Definition two_digits (n : Z) : string := pad_digits 2 n "".

(** ** [Date.prototype.toISOString] *)

(** The year of an ISO timestamp: four digits for years 0 to 9999, else
    the expanded form with a sign and six digits. *)
Definition iso_year (y : Z) : string :=
  if (0 <=? y) && (y <=? 9999) then pad_digits 4 y ""
  else (if y <? 0 then "-" else "+") +:+ pad_digits 6 (Z.abs y) "".

Definition iso_string (t : Z) : string :=
  iso_year (YearFromTime t) +:+ "-" +:+ two_digits (MonthFromTime t) +:+ "-"
  +:+ two_digits (DateFromTime t) +:+ "T" +:+ two_digits (HourFromTime t)
  +:+ ":" +:+ two_digits (MinFromTime t) +:+ ":" +:+ two_digits (SecFromTime t)
  +:+ "." +:+ pad_digits 3 (msFromTime t) "" +:+ "Z".

(** [toISOString] throws a [RangeError] on the invalid date. *)
Definition toISOString (d : JSDate) : result string :=
  match d with
  | ValidDate t => Ok (iso_string t)
  | InvalidDate => Throw (RangeError "Invalid time value")
  end.

(** ** [Date.prototype.toLocaleString] *)

Inductive NumStyle : Type := Numeric | TwoDigit.
Inductive MonthStyle : Type := MonthNumeric | Month2Digit | MonthShort.

(** The options object of [Intl.DateTimeFormat], restricted to the
    properties the service sets. *)
Record DateTimeFormatOptions : Type := mkOptions {
  timeZone : string;
  year : NumStyle;
  month : MonthStyle;
  day : NumStyle;
  hour : NumStyle;
  minute : NumStyle;
  second : NumStyle;
  hour12 : bool
}.

(** What the runtime's [Intl] implementation knows about a locale and
    about time zones, as far as the rendering below needs it. *)
Record LocaleData : Type := mkLocale {
  month_abbrev : Z -> string;       (* 1-based month number *)
  date_separator : string;          (* between day and year *)
  datetime_separator : string;      (* between date and time *)
  day_period_separator : string;    (* between time and AM/PM *)
  am_marker : string;
  pm_marker : string;
  zone_offset_minutes : string -> option Z
}.

(** Modelled from the spec: the runtime's data for ['en-US'] and for the
    zone Asia/Manila, which are not part of the repository. The spec
    gives the rendering as [Mon DD, YYYY, HH:MM:SS AM/PM] and the zone
    as the fixed offset UTC+8 (the source comment on [formatGMT8] says
    GMT+8 as well). *)
Definition en_US_month (m : Z) : string :=
  match m with
  | 1 => "Jan" | 2 => "Feb" | 3 => "Mar" | 4 => "Apr"
  | 5 => "May" | 6 => "Jun" | 7 => "Jul" | 8 => "Aug"
  | 9 => "Sep" | 10 => "Oct" | 11 => "Nov" | _ => "Dec"
  end.

(** Modelled from the spec: see [en_US_month]. *)
Definition en_US : LocaleData :=
  {| month_abbrev := en_US_month;
     date_separator := ", ";
     datetime_separator := ", ";
     day_period_separator := " ";
     am_marker := "AM";
     pm_marker := "PM";
     zone_offset_minutes := fun z =>
       if String.eqb z "Asia/Manila" then Some 480
       else if String.eqb z "UTC" then Some 0
       else None |}.

(** The wall-clock components of a time value in a zone. *)
Record LocalFields : Type := mkFields {
  lf_year : Z; lf_month : Z; lf_day : Z;
  lf_hour : Z; lf_minute : Z; lf_second : Z
}.

Definition local_fields (offset_minutes t : Z) : LocalFields :=
  let lt := t + offset_minutes * msPerMinute in
  let c := civil_from_days (Day lt) in
  mkFields (cd_year c) (cd_month c) (cd_day c)
           (HourFromTime lt) (MinFromTime lt) (SecFromTime lt).

(** The year as shown without an era: the year of the era, so that year 0
    (1 BC) reads 1. *)
Definition era_year (y : Z) : Z := if 0 <? y then y else 1 - y.

(** Hour of the 12-hour clock: 12, 1, ..., 11. *)
Definition hour_of_12 (h : Z) : Z := if h mod 12 =? 0 then 12 else h mod 12.

Definition styled (s : NumStyle) (n : Z) : string :=
  match s with
  | Numeric => decimal n
  | TwoDigit => two_digits n
  end.

Definition render_month (L : LocaleData) (s : MonthStyle) (m : Z) : string :=
  match s with
  | MonthNumeric => decimal m
  | Month2Digit => two_digits m
  | MonthShort => month_abbrev L m
  end.

(** Date part: [MMM d, y] with a short month name, [M/d/y] otherwise. *)
Definition render_date (L : LocaleData) (o : DateTimeFormatOptions)
    (f : LocalFields) : string :=
  match month o with
  | MonthShort =>
      render_month L (month o) (lf_month f) +:+ " " +:+ styled (day o) (lf_day f)
      +:+ date_separator L +:+ styled (year o) (era_year (lf_year f))
  | _ =>
      render_month L (month o) (lf_month f) +:+ "/" +:+ styled (day o) (lf_day f)
      +:+ "/" +:+ styled (year o) (era_year (lf_year f))
  end.

(** Time part: minutes and seconds always take two digits next to an
    hour; the day period appears on the 12-hour clock only. *)
Definition render_time (L : LocaleData) (o : DateTimeFormatOptions)
    (f : LocalFields) : string :=
  if hour12 o then
    styled (hour o) (hour_of_12 (lf_hour f)) +:+ ":" +:+ two_digits (lf_minute f)
    +:+ ":" +:+ two_digits (lf_second f) +:+ day_period_separator L
    +:+ (if lf_hour f <? 12 then am_marker L else pm_marker L)
  else
    styled (hour o) (lf_hour f) +:+ ":" +:+ two_digits (lf_minute f)
    +:+ ":" +:+ two_digits (lf_second f).

Definition render (L : LocaleData) (o : DateTimeFormatOptions)
    (f : LocalFields) : string :=
  render_date L o f +:+ datetime_separator L +:+ render_time L o f.

(** [date.toLocaleString('en-US', options)], with [L] the runtime's data
    for that locale. A zone the runtime does not know is a [RangeError];
    the invalid date formats as the string [Invalid Date]. *)
Definition toLocaleString (L : LocaleData) (o : DateTimeFormatOptions)
    (d : JSDate) : result string :=
  match zone_offset_minutes L (timeZone o) with
  | None => Throw (RangeError ("Invalid time zone specified: " +:+ timeZone o))
  | Some off =>
      match d with
      | InvalidDate => Ok "Invalid Date"
      | ValidDate t => Ok (render L o (local_fields off t))
      end
  end.

End JsTime.

Import JsTime.


(* ===================================================================== *)
(** * The world of the service                                           *)
(* ===================================================================== *)

(** What a cron job's [nextDate()] or [lastDate()] hands back: the source
    declares [CronDateLike = Date | { toJSDate(): Date }] and tests for
    [null]; [CronOther] is any other truthy value, on which calling
    [toJSDate] is a [TypeError]. *)
Inductive CronDate : Type :=
| CronNull
| CronNative (d : JSDate)
| CronWrapped (d : JSDate)
| CronOther.

(** The function a job runs when it fires: the closure that
    [scheduleBackups] passes to the constructor, or one of another
    owner. *)
Inductive TickHandler : Type :=
| BackupTick
| ForeignTick.

(** What [job.stop()] does: returns nothing, returns a promise (which
    fulfils or rejects), or throws. *)
Inductive StopOutcome : Type :=
| StopVoid
| StopPromise (settle : result unit)
| StopThrows (e : Exn).

(** A [CronJob] object of the [cron] library, as far as the service
    touches it. *)
Record CronJob : Type := mkJob {
  job_cronTime : string;
  job_timeZone : string;
  job_onTick : TickHandler;
  job_running : bool;
  job_nextDate : result CronDate;
  job_lastDate : result CronDate;
  job_stop : StopOutcome
}.

(** The database client handle: opaque to the service. *)
Definition Client : Type := nat.

Inductive Colour : Type := Yellow | Cyan | Green | Red.

(** A console line: [console.log] or [console.error], the text with the
    [chalk] colour it was wrapped in (if any), and the error value passed
    as second argument (if any). *)
Inductive Stream : Type := Log | ErrorLog.

Record LogEntry : Type := mkLog {
  log_stream : Stream;
  log_colour : option Colour;
  log_text : string;
  log_error : option Exn
}.

(** Calls on the objects the service is given, in program order. A call
    on a backup collaborator is recorded when it completes, with its
    outcome. *)
Inductive Event : Type :=
| EvNewCronJob (cronTime timeZone : string) (start : bool)
| EvGetCronJob (name : string)
| EvNextDate (job : nat)
| EvLastDate (job : nat)
| EvStop (job : nat)
| EvGetClient (r : result Client)
| EvCreateFullBackup (client : Client) (r : result string)
| EvUploadToSupabase (path : string) (r : result unit)
| EvCleanOldBackups (keepCount : Z) (r : result unit).

(** The state a method runs in. [X] is the state owned by the backup
    collaborators (database, local disk, remote bucket). Job objects live
    on [heap] and are named by their index; [registry] is the
    [SchedulerRegistry]'s map of cron jobs. *)
Record World (X : Type) : Type := mkWorld {
  env : gmap string string;
  clock : Z;
  heap : list CronJob;
  registry : gmap string nat;
  console : list LogEntry;
  events : list Event;
  ext : X
}.

Arguments mkWorld {X}.
Arguments env {X}.
Arguments clock {X}.
Arguments heap {X}.
Arguments registry {X}.
Arguments console {X}.
Arguments events {X}.
Arguments ext {X}.

(** ** The injected collaborators *)

Class DatabaseService (X : Type) : Type := {
  getClient : X -> result Client * X
}.

Class BackupService (X : Type) : Type := {
  createFullBackup : Client -> X -> result string * X;
  uploadToSupabase : string -> X -> result unit * X;
  cleanOldBackups : Z -> X -> result unit * X
}.

(** The [cron] library: whether the constructor accepts a cron
    expression and time zone (and the error it throws if not), and the
    next fire time of an accepted schedule seen from a given instant. *)
Class CronLibrary : Type := {
  cron_rejects : string -> string -> option Exn;
  cron_next : string -> string -> Z -> result CronDate
}.

(* ===================================================================== *)
(** * State and exceptions                                                *)
(* ===================================================================== *)

Section Monad.
Context {X : Type}.

Definition M (A : Type) : Type := World X -> result A * World X.

Definition ret {A : Type} (a : A) : M A := fun w => (Ok a, w).

Definition throw {A : Type} (e : Exn) : M A := fun w => (Throw e, w).

Definition bind {A B : Type} (m : M A) (k : A -> M B) : M B :=
  fun w =>
    match m w with
    | (Ok a, w') => k a w'
    | (Throw e, w') => (Throw e, w')
    end.

(** [try { m } catch (error) { h error }] *)
Definition try_catch {A : Type} (m : M A) (h : Exn -> M A) : M A :=
  fun w =>
    match m w with
    | (Ok a, w') => (Ok a, w')
    | (Throw e, w') => h e w'
    end.

(** An expression that may throw but touches no state. *)
Definition lift {A : Type} (r : result A) : M A := fun w => (r, w).

Definition set_env (e : gmap string string) (w : World X) : World X :=
  mkWorld e (clock w) (heap w) (registry w) (console w) (events w) (ext w).

Definition set_console (c : list LogEntry) (w : World X) : World X :=
  mkWorld (env w) (clock w) (heap w) (registry w) c (events w) (ext w).

Definition set_events (t : list Event) (w : World X) : World X :=
  mkWorld (env w) (clock w) (heap w) (registry w) (console w) t (ext w).

Definition set_heap (h : list CronJob) (w : World X) : World X :=
  mkWorld (env w) (clock w) h (registry w) (console w) (events w) (ext w).

Definition set_ext (x : X) (w : World X) : World X :=
  mkWorld (env w) (clock w) (heap w) (registry w) (console w) (events w) x.

Definition record (e : Event) (w : World X) : World X :=
  set_events (events w ++ [e]) w.

Definition print (l : LogEntry) : M unit :=
  fun w => (Ok tt, set_console (console w ++ [l]) w).

End Monad.

Arguments M : clear implicits.

Notation "x <- m ;; k" := (bind m (fun x => k))
  (at level 100, m at next level, right associativity).
Notation "m ;; k" := (bind m (fun _ => k))
  (at level 100, right associativity).

(* ===================================================================== *)
(** * ScheduledBackupService                                              *)
(* ===================================================================== *)

(** The two shapes of object that [getScheduleStatus] returns. *)
Record StatusReport : Type := mkReport {
  sr_enabled : bool;
  sr_cronExpression : string;
  sr_timezone : string;
  sr_nextRun : string;
  sr_nextRunLocal : string;
  sr_lastRun : string;
  sr_lastRunLocal : string;
  sr_serverTime : string;
  sr_serverTimeLocal : string
}.

Record StatusError : Type := mkStatusError {
  se_enabled : bool;
  se_cronExpression : string;
  se_error : string
}.

Inductive ScheduleStatus : Type :=
| Report (r : StatusReport)
| Degraded (d : StatusError).

(** [v || dflt] for [v] a string or [undefined]: the empty string is
    falsy too. *)
Definition or_default (v : option string) (dflt : string) : string :=
  match v with
  | Some s => if String.eqb s "" then dflt else s
  | None => dflt
  end.

(** [v !== s] for [v] a string or [undefined]. *)
Definition strict_neq (v : option string) (s : string) : bool :=
  match v with
  | Some s' => negb (String.eqb s' s)
  | None => true
  end.

(** Truthiness of what [nextDate()] and [lastDate()] return. *)
Definition truthy (v : CronDate) : bool :=
  match v with
  | CronNull => false
  | _ => true
  end.

Section Service.
Context {X : Type}.
Context {database : DatabaseService X} {backup : BackupService X}.
Context {cron : CronLibrary}.
(** The runtime's locale data for ['en-US']. *)
Context (icu : LocaleData).

(** ** Runtime and library primitives *)

Definition process_env (name : string) : M X (option string) :=
  fun w => (Ok (env w !! name), w).

Definition console_log (c : Colour) (text : string) : M X unit :=
  print (mkLog Log (Some c) text None).

Definition console_error (c : option Colour) (text : string) (error : Exn)
    : M X unit :=
  print (mkLog ErrorLog c text (Some error)).

(** [new Date()] *)
Definition new_Date : M X JSDate :=
  fun w => (Ok (ValidDate (clock w)), w).

(** [await p] on a promise that settles as [p]. *)
Definition await {A : Type} (p : result A) : M X A := lift p.

(** [v instanceof Date ? v : v.toJSDate()] *)
Definition toJSDate_unless_Date (v : CronDate) : M X JSDate :=
  match v with
  | CronNative d => ret d
  | CronWrapped d => ret d
  | CronNull =>
      throw (TypeError "Cannot read properties of null (reading 'toJSDate')")
  | CronOther => throw (TypeError "toJSDate is not a function")
  end.

(** [new CronJob(cronTime, onTick, null, start, timeZone)]: throws what
    the library throws on a schedule it rejects, else allocates the job. *)
Definition new_CronJob (cronTime : string) (onTick : TickHandler)
    (start : bool) (tz : string) : M X nat :=
  fun w =>
    let w' := record (EvNewCronJob cronTime tz start) w in
    match cron_rejects cronTime tz with
    | Some e => (Throw e, w')
    | None =>
        let job := {| job_cronTime := cronTime;
                      job_timeZone := tz;
                      job_onTick := onTick;
                      job_running := start;
                      job_nextDate := cron_next cronTime tz (clock w);
                      job_lastDate := Ok CronNull;
                      job_stop := StopVoid |} in
        (Ok (length (heap w)), set_heap (heap w ++ [job]) w')
    end.

Definition not_a_job : Exn :=
  TypeError "Cannot read properties of undefined".

(** [job.nextDate()] and [job.lastDate()] *)
Definition nextDate (j : nat) : M X CronDate :=
  fun w =>
    let w' := record (EvNextDate j) w in
    match heap w !! j with
    | Some job => (job_nextDate job, w')
    | None => (Throw not_a_job, w')
    end.

Definition lastDate (j : nat) : M X CronDate :=
  fun w =>
    let w' := record (EvLastDate j) w in
    match heap w !! j with
    | Some job => (job_lastDate job, w')
    | None => (Throw not_a_job, w')
    end.

Definition halted (job : CronJob) : CronJob :=
  {| job_cronTime := job_cronTime job;
     job_timeZone := job_timeZone job;
     job_onTick := job_onTick job;
     job_running := false;
     job_nextDate := job_nextDate job;
     job_lastDate := job_lastDate job;
     job_stop := job_stop job |}.

(** [job.stop()]: [None] for a call that returns nothing, [Some p] for a
    call that returns a promise settling as [p]. *)
Definition stop (j : nat) : M X (option (result unit)) :=
  fun w =>
    let w' := record (EvStop j) w in
    match heap w !! j with
    | None => (Throw not_a_job, w')
    | Some job =>
        match job_stop job with
        | StopThrows e => (Throw e, w')
        | StopVoid => (Ok None, set_heap (<[j := halted job]> (heap w)) w')
        | StopPromise p =>
            (Ok (Some p), set_heap (<[j := halted job]> (heap w)) w')
        end
    end.

(** [schedulerRegistry.getCronJob(name)]: throws when no job has that
    name. *)
Definition getCronJob (name : string) : M X nat :=
  fun w =>
    let w' := record (EvGetCronJob name) w in
    match registry w !! name with
    | Some j => (Ok j, w')
    | None =>
        (Throw (Error ("No Cron Job was found with the given name ("
                       +:+ name +:+ ")")), w')
    end.

(** ** Calls on the collaborators *)

Definition databaseService_getClient : M X Client :=
  fun w =>
    let (r, x) := getClient (ext w) in
    (r, record (EvGetClient r) (set_ext x w)).

Definition backupService_createFullBackup (client : Client) : M X string :=
  fun w =>
    let (r, x) := createFullBackup client (ext w) in
    (r, record (EvCreateFullBackup client r) (set_ext x w)).

Definition backupService_uploadToSupabase (path : string) : M X unit :=
  fun w =>
    let (r, x) := uploadToSupabase path (ext w) in
    (r, record (EvUploadToSupabase path r) (set_ext x w)).

Definition backupService_cleanOldBackups (keepCount : Z) : M X unit :=
  fun w =>
    let (r, x) := cleanOldBackups keepCount (ext w) in
    (r, record (EvCleanOldBackups keepCount r) (set_ext x w)).

(** ** The methods *)

Definition formatGMT8_options : DateTimeFormatOptions :=
  {| timeZone := "Asia/Manila";
     year := Numeric;
     month := MonthShort;
     day := TwoDigit;
     hour := TwoDigit;
     minute := TwoDigit;
     second := TwoDigit;
     hour12 := true |}.

Definition formatGMT8 (date : JSDate) : M X string :=
  lift (toLocaleString icu formatGMT8_options date).

(** The function given to the [CronJob] constructor as [onTick]. *)
Definition scheduledBackupTick : M X unit :=
  console_log Yellow "[BACKUP] Running scheduled backup..." ;;
  try_catch
    (client <- databaseService_getClient ;;
     backupPath <- backupService_createFullBackup client ;;
     console_log Green
       ("[BACKUP] Scheduled backup completed locally: " +:+ backupPath) ;;
     backupService_uploadToSupabase backupPath ;;
     backupService_cleanOldBackups 30)
    (fun error =>
       console_error (Some Red) "[BACKUP] Scheduled backup failed:" error).

Definition run_handler (h : TickHandler) : M X unit :=
  match h with
  | BackupTick => scheduledBackupTick
  | ForeignTick => ret tt
  end.

Definition scheduleBackups : M X unit :=
  BACKUP_CRON <- process_env "BACKUP_CRON" ;;
  let cronExpression := or_default BACKUP_CRON "0 2 * * *" in
  BACKUP_TIMEZONE <- process_env "BACKUP_TIMEZONE" ;;
  let timezone := or_default BACKUP_TIMEZONE "UTC" in
  BACKUP_ENABLED <- process_env "BACKUP_ENABLED" ;;
  let enabled := strict_neq BACKUP_ENABLED "false" in
  if negb enabled then
    console_log Yellow "[BACKUP] Scheduled backups are disabled"
  else
    console_log Cyan
      ("[BACKUP] Scheduling automatic backups: " +:+ cronExpression
       +:+ " (" +:+ timezone +:+ ")") ;;
    job <- new_CronJob cronExpression BackupTick false timezone ;;
    nextRun <- nextDate job ;;
    nextRunDate <- toJSDate_unless_Date nextRun ;;
    console_log Green "[BACKUP] Automatic backup schedule initialized." ;;
    now <- new_Date ;;
    nowISO <- lift (toISOString now) ;;
    now' <- new_Date ;;
    nowLocal <- formatGMT8 now' ;;
    console_log Cyan
      ("[BACKUP] Current Server Time: " +:+ nowISO
       +:+ " | local(GMT+8): " +:+ nowLocal) ;;
    nextISO <- lift (toISOString nextRunDate) ;;
    nextLocal <- formatGMT8 nextRunDate ;;
    console_log Yellow
      ("[BACKUP] Next run scheduled for: " +:+ nextISO
       +:+ " | local(GMT+8): " +:+ nextLocal).

Definition onModuleInit : M X unit := scheduleBackups.

Definition triggerManualBackup : M X string :=
  console_log Yellow "[BACKUP] Manual backup triggered..." ;;
  try_catch
    (client <- databaseService_getClient ;;
     backupPath <- backupService_createFullBackup client ;;
     console_log Green
       ("[BACKUP] Manual backup completed locally: " +:+ backupPath) ;;
     backupService_uploadToSupabase backupPath ;;
     ret backupPath)
    (fun error =>
       console_error (Some Red) "[BACKUP] Manual backup failed:" error ;;
       throw error).

Definition stopScheduledBackups : M X unit :=
  try_catch
    (job <- getCronJob "database-backup" ;;
     stopResult <- stop job ;;
     match stopResult with
     | Some p => await p
     | None => ret tt
     end ;;
     console_log Yellow "[BACKUP] Scheduled backups stopped")
    (fun error =>
       console_error None "[BACKUP] Error stopping scheduled backups:" error).

Definition getScheduleStatus : M X ScheduleStatus :=
  try_catch
    (job <- getCronJob "database-backup" ;;
     nextDate <- nextDate job ;;
     lastDate <- lastDate job ;;
     nextRunStr <-
       (if truthy nextDate then
          normalizedNext <- toJSDate_unless_Date nextDate ;;
          lift (toISOString normalizedNext)
        else ret "N/A") ;;
     lastRunStr <-
       (if truthy lastDate then
          normalizedLast <- toJSDate_unless_Date lastDate ;;
          lift (toISOString normalizedLast)
        else ret "N/A") ;;
     BACKUP_CRON <- process_env "BACKUP_CRON" ;;
     BACKUP_TIMEZONE <- process_env "BACKUP_TIMEZONE" ;;
     nextRunLocal <-
       (if truthy nextDate then
          d <- toJSDate_unless_Date nextDate ;; formatGMT8 d
        else ret "N/A") ;;
     lastRunLocal <-
       (if truthy lastDate then
          d <- toJSDate_unless_Date lastDate ;; formatGMT8 d
        else ret "N/A") ;;
     now <- new_Date ;;
     serverTime <- lift (toISOString now) ;;
     now' <- new_Date ;;
     serverTimeLocal <- formatGMT8 now' ;;
     ret (Report
            {| sr_enabled := true;
               sr_cronExpression := or_default BACKUP_CRON "0 2 * * *";
               sr_timezone := or_default BACKUP_TIMEZONE "UTC";
               sr_nextRun := nextRunStr;
               sr_nextRunLocal := nextRunLocal;
               sr_lastRun := lastRunStr;
               sr_lastRunLocal := lastRunLocal;
               sr_serverTime := serverTime;
               sr_serverTimeLocal := serverTimeLocal |}))
    (fun error =>
       console_error None "[BACKUP] Status check failed:" error ;;
       BACKUP_CRON <- process_env "BACKUP_CRON" ;;
       ret (Degraded
              {| se_enabled := false;
                 se_cronExpression := or_default BACKUP_CRON "0 2 * * *";
                 se_error := "Scheduler not initialized" |})).

End Service.

(* ===================================================================== *)
(** * Vocabulary of the specification                                     *)
(* ===================================================================== *)

(** The configuration the service reads from the environment. *)
Definition configured_cron (e : gmap string string) : string :=
  or_default (e !! "BACKUP_CRON") "0 2 * * *".

Definition configured_timezone (e : gmap string string) : string :=
  or_default (e !! "BACKUP_TIMEZONE") "UTC".

(** The display format [Mon DD, YYYY, HH:MM:SS AM/PM]. *)
Definition display_12h (mon : string) (dd yyyy hh mi ss : Z) (pm : bool)
    : string :=
  mon +:+ " " +:+ two_digits dd +:+ ", " +:+ decimal yyyy +:+ ", "
  +:+ two_digits hh +:+ ":" +:+ two_digits mi +:+ ":" +:+ two_digits ss
  +:+ " " +:+ (if pm then "PM" else "AM").

(** Local times from the start of year 1000 to the end of year 9999. *)
Definition four_digit_year (local : Z) : Prop :=
  days_from_civil (mkCivil 1000 1 1) * msPerDay <= local
  < days_from_civil (mkCivil 10000 1 1) * msPerDay.

Definition month_names : list string :=
  ["Jan"; "Feb"; "Mar"; "Apr"; "May"; "Jun";
   "Jul"; "Aug"; "Sep"; "Oct"; "Nov"; "Dec"].

(** The hour of the day that a 12-hour reading denotes. *)
Definition hour_of_day (hh : Z) (pm : bool) : Z :=
  hh mod 12 + (if pm then 12 else 0).

(** A world with the console wiped: what is left is everything a later
    decision of the program or of the scheduler can depend on. *)
Definition silenced {X : Type} (w : World X) : World X := set_console [] w.

(** Events that only read: a registry lookup, a fire-time query. *)
Definition is_query (e : Event) : bool :=
  match e with
  | EvGetCronJob _ | EvNextDate _ | EvLastDate _ => true
  | _ => false
  end.

Definition is_cleanOldBackups (e : Event) : bool :=
  match e with
  | EvCleanOldBackups _ _ => true
  | _ => false
  end.

(** A computation that only looks: whatever it returns or throws, it
    leaves the environment, the clock, the job objects, the registry and
    the collaborators' state as they were, and the calls it makes are
    queries. It may write to the console. *)
Definition read_only {X A : Type} (m : M X A) : Prop :=
  forall w : World X,
    exists t : list Event,
      env (m w).2 = env w /\
      clock (m w).2 = clock w /\
      heap (m w).2 = heap w /\
      registry (m w).2 = registry w /\
      ext (m w).2 = ext w /\
      events (m w).2 = events w ++ t /\
      forallb is_query t = true.

(** The console line of a caught error. *)
Definition error_line (c : option Colour) (text : string) (e : Exn)
    : LogEntry :=
  mkLog ErrorLog c text (Some e).

(** The job object [new CronJob(expr, tick, null, false, tz)] allocates. *)
Definition fresh_job `{CronLibrary} (expr tz : string) (now : Z) : CronJob :=
  {| job_cronTime := expr;
     job_timeZone := tz;
     job_onTick := BackupTick;
     job_running := false;
     job_nextDate := cron_next expr tz now;
     job_lastDate := Ok CronNull;
     job_stop := StopVoid |}.

(* ===================================================================== *)
(** * Runs of the backup pipeline                                         *)
(* ===================================================================== *)

Definition tick_started : LogEntry :=
  mkLog Log (Some Yellow) "[BACKUP] Running scheduled backup..." None.

Definition tick_stored (path : string) : LogEntry :=
  mkLog Log (Some Green)
    ("[BACKUP] Scheduled backup completed locally: " +:+ path) None.

Definition tick_failed (e : Exn) : LogEntry :=
  error_line (Some Red) "[BACKUP] Scheduled backup failed:" e.

(** The runs of one firing: the calls made on the collaborators, in
    order, and the lines written. Each call appears only after the calls
    before it have succeeded; the first failure ends the run with one
    error line. *)
Inductive tick_run : list Event -> list LogEntry -> Prop :=
| tick_no_client (e : Exn) :
    tick_run [EvGetClient (Throw e)] [tick_started; tick_failed e]
| tick_no_backup (c : Client) (e : Exn) :
    tick_run [EvGetClient (Ok c); EvCreateFullBackup c (Throw e)]
             [tick_started; tick_failed e]
| tick_no_upload (c : Client) (p : string) (e : Exn) :
    tick_run [EvGetClient (Ok c); EvCreateFullBackup c (Ok p);
              EvUploadToSupabase p (Throw e)]
             [tick_started; tick_stored p; tick_failed e]
| tick_no_prune (c : Client) (p : string) (e : Exn) :
    tick_run [EvGetClient (Ok c); EvCreateFullBackup c (Ok p);
              EvUploadToSupabase p (Ok tt); EvCleanOldBackups 30 (Throw e)]
             [tick_started; tick_stored p; tick_failed e]
| tick_complete (c : Client) (p : string) :
    tick_run [EvGetClient (Ok c); EvCreateFullBackup c (Ok p);
              EvUploadToSupabase p (Ok tt); EvCleanOldBackups 30 (Ok tt)]
             [tick_started; tick_stored p].

Definition manual_started : LogEntry :=
  mkLog Log (Some Yellow) "[BACKUP] Manual backup triggered..." None.

Definition manual_stored (path : string) : LogEntry :=
  mkLog Log (Some Green)
    ("[BACKUP] Manual backup completed locally: " +:+ path) None.

Definition manual_failed (e : Exn) : LogEntry :=
  error_line (Some Red) "[BACKUP] Manual backup failed:" e.

(** The runs of a manual trigger, with what the caller receives. *)
Inductive manual_run : list Event -> list LogEntry -> result string -> Prop :=
| manual_no_client (e : Exn) :
    manual_run [EvGetClient (Throw e)]
               [manual_started; manual_failed e] (Throw e)
| manual_no_backup (c : Client) (e : Exn) :
    manual_run [EvGetClient (Ok c); EvCreateFullBackup c (Throw e)]
               [manual_started; manual_failed e] (Throw e)
| manual_no_upload (c : Client) (p : string) (e : Exn) :
    manual_run [EvGetClient (Ok c); EvCreateFullBackup c (Ok p);
                EvUploadToSupabase p (Throw e)]
               [manual_started; manual_stored p; manual_failed e] (Throw e)
| manual_complete (c : Client) (p : string) :
    manual_run [EvGetClient (Ok c); EvCreateFullBackup c (Ok p);
                EvUploadToSupabase p (Ok tt)]
               [manual_started; manual_stored p] (Ok p).

Definition stop_succeeded : LogEntry :=
  mkLog Log (Some Yellow) "[BACKUP] Scheduled backups stopped" None.

Definition stop_failed (e : Exn) : LogEntry :=
  error_line None "[BACKUP] Error stopping scheduled backups:" e.

(** What a failing [stop] fails with: the error it throws, or the one
    its promise rejects with. *)
Definition stop_fails_with (job : CronJob) (e : Exn) : Prop :=
  job_stop job = StopThrows e \/ job_stop job = StopPromise (Throw e).

Definition status_failed (e : Exn) : LogEntry :=
  error_line None "[BACKUP] Status check failed:" e.

(** The record [getScheduleStatus] answers with when its [try] block
    throws. *)
Definition degraded_record (e : gmap string string) : ScheduleStatus :=
  Degraded {| se_enabled := false;
              se_cronExpression := configured_cron e;
              se_error := "Scheduler not initialized" |}.

Definition disabled_line : LogEntry :=
  mkLog Log (Some Yellow) "[BACKUP] Scheduled backups are disabled" None.

Definition scheduling_line (expr tz : string) : LogEntry :=
  mkLog Log (Some Cyan)
    ("[BACKUP] Scheduling automatic backups: " +:+ expr
     +:+ " (" +:+ tz +:+ ")") None.

(* ===================================================================== *)
(** * Further vocabulary                                                  *)
(* ===================================================================== *)

(** Calls on the database and backup collaborators. *)
Definition is_collaborator_call (e : Event) : bool :=
  match e with
  | EvGetClient _ | EvCreateFullBackup _ _
  | EvUploadToSupabase _ _ | EvCleanOldBackups _ _ => true
  | _ => false
  end.

(** [v || d] told in cases: a non-empty string stands for itself, the
    empty string and [undefined] give the default. *)
Inductive given_or : option string -> string -> string -> Prop :=
| given_value (s d : string) : s <> "" -> given_or (Some s) d s
| given_empty (d : string) : given_or (Some "") d d
| given_unset (d : string) : given_or None d d.

(** The [Date] behind a fire time, native or wrapped. *)
Definition date_of (v : CronDate) : option JSDate :=
  match v with
  | CronNative d | CronWrapped d => Some d
  | CronNull | CronOther => None
  end.

Definition initialized_line : LogEntry :=
  mkLog Log (Some Green) "[BACKUP] Automatic backup schedule initialized." None.

Definition server_time_line (iso local : string) : LogEntry :=
  mkLog Log (Some Cyan)
    ("[BACKUP] Current Server Time: " +:+ iso
     +:+ " | local(GMT+8): " +:+ local) None.

Definition next_run_line (iso local : string) : LogEntry :=
  mkLog Log (Some Yellow)
    ("[BACKUP] Next run scheduled for: " +:+ iso
     +:+ " | local(GMT+8): " +:+ local) None.

(** The ways [job.nextDate()] can fail [scheduleBackups], which calls
    [toJSDate] on whatever is not a [Date]: the call throws, or it
    answers [null] or something that has no [toJSDate]. *)
Inductive next_date_unusable : result CronDate -> Exn -> Prop :=
| unusable_throws (e : Exn) : next_date_unusable (Throw e) e
| unusable_null :
    next_date_unusable (Ok CronNull)
      (TypeError "Cannot read properties of null (reading 'toJSDate')")
| unusable_other :
    next_date_unusable (Ok CronOther)
      (TypeError "toJSDate is not a function").

(** The ways a fire time can fail [getScheduleStatus], which skips
    [null]: the call throws, the value has no [toJSDate], or the date
    is invalid. *)
Inductive fire_time_unreadable : result CronDate -> Exn -> Prop :=
| unreadable_throws (e : Exn) : fire_time_unreadable (Throw e) e
| unreadable_other :
    fire_time_unreadable (Ok CronOther)
      (TypeError "toJSDate is not a function")
| unreadable_invalid (v : CronDate) :
    date_of v = Some InvalidDate ->
    fire_time_unreadable (Ok v) (RangeError "Invalid time value").


(** Leap years and month lengths of the Gregorian calendar. *)
Definition leap_year (y : Z) : bool :=
  ((y mod 4 =? 0) && negb (y mod 100 =? 0)) || (y mod 400 =? 0).

Definition days_in_month (y m : Z) : Z :=
  if m =? 2 then (if leap_year y then 29 else 28)
  else if (m =? 4) || (m =? 6) || (m =? 9) || (m =? 11) then 30
  else 31.

(** A date that is on the calendar: April has no 31st. *)
Definition calendar_date (c : CivilDate) : Prop :=
  1 <= cd_month c <= 12 /\
  1 <= cd_day c <= days_in_month (cd_year c) (cd_month c).

(** A reading of a local time: calendar date [y]-[m]-[d], 12-hour time
    [hh]:[mi]:[ss] before or after noon, standing for the time value
    [t] shifted by [offset] milliseconds. *)
Definition reads_as (t offset y m d hh mi ss : Z) (pm : bool) : Prop :=
  calendar_date (mkCivil y m d) /\
  1 <= hh <= 12 /\ 0 <= mi < 60 /\ 0 <= ss < 60 /\
  days_from_civil (mkCivil y m d) * msPerDay
  + hour_of_day hh pm * msPerHour + mi * msPerMinute
  + ss * msPerSecond + t mod msPerSecond
  = t + offset.

Section Answers.
Context {X : Type}.
Context {database : DatabaseService X} {backup : BackupService X}.

(** A trace of collaborator calls that the collaborators really answer:
    started in state [x], each call in turn returns the recorded outcome
    and hands its state on to the next, the last one leaving [x']. *)
Inductive answered : X -> list Event -> X -> Prop :=
| answered_end (x : X) : answered x [] x
| answered_getClient (x x1 x' : X) (r : result Client) (t : list Event) :
    getClient x = (r, x1) ->
    answered x1 t x' ->
    answered x (EvGetClient r :: t) x'
| answered_createFullBackup (x x1 x' : X) (c : Client) (r : result string)
    (t : list Event) :
    createFullBackup c x = (r, x1) ->
    answered x1 t x' ->
    answered x (EvCreateFullBackup c r :: t) x'
| answered_uploadToSupabase (x x1 x' : X) (path : string) (r : result unit)
    (t : list Event) :
    uploadToSupabase path x = (r, x1) ->
    answered x1 t x' ->
    answered x (EvUploadToSupabase path r :: t) x'
| answered_cleanOldBackups (x x1 x' : X) (keepCount : Z) (r : result unit)
    (t : list Event) :
    cleanOldBackups keepCount x = (r, x1) ->
    answered x1 t x' ->
    answered x (EvCleanOldBackups keepCount r :: t) x'.

End Answers.

(** The job object under the service's key, if there is one. *)
Definition registered_job {X : Type} (w : World X) : option CronJob :=
  match registry w !! "database-backup" with
  | Some j => heap w !! j
  | None => None
  end.

(** The two fire times of a job, as its methods report them. *)
Definition fire_times (job : CronJob) : result CronDate * result CronDate :=
  (job_nextDate job, job_lastDate job).

(** The job objects after a call of [stopScheduledBackups]: the job
    under the key is halted unless its [stop] throws. *)
Definition heap_after_stop {X : Type} (w : World X) : list CronJob :=
  match registry w !! "database-backup" with
  | Some j =>
      match heap w !! j with
      | Some job =>
          match job_stop job with
          | StopThrows _ => heap w
          | _ => <[j := halted job]> (heap w)
          end
      | None => heap w
      end
  | None => heap w
  end.

(** What [stop] succeeding means: it returns nothing, or a promise that
    fulfils. *)
Definition stop_succeeds (job : CronJob) : Prop :=
  job_stop job = StopVoid \/ job_stop job = StopPromise (Ok tt).

(* ===================================================================== *)
(** * Test doubles                                                        *)
(* ===================================================================== *)

(** Collaborators that answer from a script and keep no other state. *)
Record Script : Type := mkScript {
  script_client : result Client;
  script_backup : result string;
  script_upload : result unit;
  script_prune : result unit
}.

Definition scripted_database : DatabaseService Script :=
  {| getClient := fun x => (script_client x, x) |}.

Definition scripted_backup : BackupService Script :=
  {| createFullBackup := fun _ x => (script_backup x, x);
     uploadToSupabase := fun _ x => (script_upload x, x);
     cleanOldBackups := fun _ x => (script_prune x, x) |}.

Definition all_well : Script :=
  mkScript (Ok 7%nat) (Ok "backups/full-2024-06-15.sql") (Ok tt) (Ok tt).

Definition disk_full : Script :=
  mkScript (Ok 7%nat) (Throw (Error "ENOSPC")) (Ok tt) (Ok tt).

Definition bucket_down : Script :=
  mkScript (Ok 7%nat) (Ok "backups/full-2024-06-15.sql")
           (Throw (Error "upload failed")) (Ok tt).

(** A cron library that knows one schedule, daily at 02:00 UTC, and
    answers [nextDate()] with a wrapped date. *)
Definition next_2am_utc (now : Z) : Z :=
  let today := Day now * msPerDay + 2 * msPerHour in
  if now <? today then today else today + msPerDay.

Definition daily_cron : CronLibrary :=
  {| cron_rejects := fun expr tz =>
       if String.eqb expr "0 2 * * *" && String.eqb tz "UTC" then None
       else Some (Error "Invalid cron pattern");
     cron_next := fun _ _ now => Ok (CronWrapped (ValidDate (next_2am_utc now))) |}.

(** 2024-06-15T10:00:00Z *)
Definition june_15 : Z := 1718445600000.

Definition boot (e : gmap string string) (x : Script) : World Script :=
  {| env := e; clock := june_15; heap := []; registry := ∅;
     console := []; events := []; ext := x |}.

(** A world where some other code has registered a job under the key. *)
Definition with_job (e : gmap string string) (j : CronJob)
    : World Script :=
  {| env := e; clock := june_15; heap := [j];
     registry := {[ "database-backup" := 0%nat ]};
     console := []; events := []; ext := all_well |}.

(** A job whose next fire time is an invalid date. *)
Definition broken_job : CronJob :=
  {| job_cronTime := "0 2 * * *";
     job_timeZone := "UTC";
     job_onTick := BackupTick;
     job_running := true;
     job_nextDate := Ok (CronNative InvalidDate);
     job_lastDate := Ok CronNull;
     job_stop := StopPromise (Throw (Error "onComplete failed")) |}.

Definition sample_job : CronJob :=
  {| job_cronTime := "0 2 * * *";
     job_timeZone := "UTC";
     job_onTick := BackupTick;
     job_running := true;
     job_nextDate := Ok (CronWrapped (ValidDate (next_2am_utc june_15)));
     job_lastDate := Ok CronNull;
     job_stop := StopVoid |}.

(** A job that has fired once and answers with native dates. *)
Definition seasoned_job : CronJob :=
  {| job_cronTime := "0 2 * * *";
     job_timeZone := "UTC";
     job_onTick := BackupTick;
     job_running := true;
     job_nextDate := Ok (CronNative (ValidDate (next_2am_utc june_15)));
     job_lastDate := Ok (CronNative (ValidDate (next_2am_utc june_15 - msPerDay)));
     job_stop := StopPromise (Ok tt) |}.

(** The sample job as if built for another schedule and since stopped. *)
Definition rescheduled_job : CronJob :=
  {| job_cronTime := "*/5 * * * *";
     job_timeZone := "Asia/Manila";
     job_onTick := ForeignTick;
     job_running := false;
     job_nextDate := Ok (CronWrapped (ValidDate (next_2am_utc june_15)));
     job_lastDate := Ok CronNull;
     job_stop := StopThrows (Error "already stopped") |}.

(** A world with a second job object next to the registered one. *)
Definition crowded : World Script :=
  {| env := ∅; clock := june_15; heap := [sample_job; seasoned_job];
     registry := {[ "database-backup" := 0%nat ]};
     console := []; events := []; ext := all_well |}.

(** A cron library that accepts every schedule but has no next date. *)
Definition dateless_cron : CronLibrary :=
  {| cron_rejects := fun _ _ => None;
     cron_next := fun _ _ _ => Ok CronNull |}.

(* ===================================================================== *)
(** * Calendar arithmetic                                                 *)
(* ===================================================================== *)

Ltac euclid := Z.div_mod_to_equations; lia.

Lemma civil_from_days_range (z : Z) :
  1 <= cd_month (civil_from_days z) <= 12 /\
  1 <= cd_day (civil_from_days z) <= 31.
Proof.
  unfold civil_from_days; cbn [cd_month cd_day].
  repeat case_match; euclid.
Qed.

(** The calendar date of a day number names that day and no other. *)
Lemma days_from_civil_from_days (z : Z) :
  days_from_civil (civil_from_days z) = z.
Proof.
  unfold days_from_civil, civil_from_days; cbn [cd_year cd_month cd_day].
  repeat case_match; euclid.
Qed.

Lemma civil_from_days_four_digit_year (z : Z) :
  days_from_civil (mkCivil 1000 1 1) <= z < days_from_civil (mkCivil 10000 1 1) ->
  1000 <= cd_year (civil_from_days z) <= 9999.
Proof.
  change (days_from_civil (mkCivil 1000 1 1)) with (-354285).
  change (days_from_civil (mkCivil 10000 1 1)) with 2932897.
  intros Hz. unfold civil_from_days; cbn [cd_year].
  repeat case_match; euclid.
Qed.

Ltac bools :=
  repeat match goal with
  | |- context [?a =? ?b] => destruct (Z.eqb_spec a b)
  | |- context [?a <=? ?b] => destruct (Z.leb_spec a b)
  | |- context [?a <? ?b] => destruct (Z.ltb_spec a b)
  | H : context [?a =? ?b] |- _ => destruct (Z.eqb_spec a b)
  | H : context [?a <=? ?b] |- _ => destruct (Z.leb_spec a b)
  end; cbn [andb orb negb] in *.

(** The date of a day number is on the calendar. *)
Lemma civil_from_days_calendar (z : Z) : calendar_date (civil_from_days z).
Proof.
  unfold calendar_date, civil_from_days, days_in_month, leap_year;
    cbn [cd_year cd_month cd_day].
  set (era := (z + 719468) / 146097).
  set (doe := z + 719468 - era * 146097).
  assert (0 <= doe < 146097) as Hdoe by (subst doe era; euclid).
  clearbody doe. clearbody era. clear z.
  assert (doe / 36524 = 0 \/ doe / 36524 = 1 \/ doe / 36524 = 2 \/
          doe / 36524 = 3 \/ doe / 36524 = 4) as Hb by euclid.
  destruct Hb as [Hb|[Hb|[Hb|[Hb|Hb]]]]; rewrite Hb in *; bools; euclid.
Qed.

Lemma civil_from_days_by_parts (z era doe yoe doy mp : Z) :
  z + 719468 = era * 146097 + doe ->
  0 <= doe < 146097 ->
  yoe = (doe - doe / 1460 + doe / 36524 - doe / 146096) / 365 ->
  doy = doe - (365 * yoe + yoe / 4 - yoe / 100) ->
  mp = (5 * doy + 2) / 153 ->
  civil_from_days z
  = mkCivil (if (if mp <? 10 then mp + 3 else mp - 9) <=? 2
             then yoe + era * 400 + 1 else yoe + era * 400)
            (if mp <? 10 then mp + 3 else mp - 9)
            (doy - (153 * mp + 2) / 5 + 1).
Proof.
  intros Hz Hdoe -> -> ->. unfold civil_from_days.
  assert ((z + 719468) / 146097 = era) as -> by euclid.
  replace (z + 719468 - era * 146097) with doe by lia.
  reflexivity.
Qed.

(** The day number of a calendar date names that date and no other. *)
Lemma civil_from_days_from_civil (c : CivilDate) :
  calendar_date c -> civil_from_days (days_from_civil c) = c.
Proof.
  destruct c as [y m d].
  unfold calendar_date, days_in_month, leap_year; cbn [cd_year cd_month cd_day].
  intros [Hm Hd].
  pose (y' := if m <=? 2 then y - 1 else y).
  pose (era := y' / 400).
  pose (yoe := y' - era * 400).
  pose (mp := if m <=? 2 then m + 9 else m - 3).
  pose (doy := (153 * mp + 2) / 5 + d - 1).
  pose (doe := yoe * 365 + yoe / 4 - yoe / 100 + doy).
  assert (days_from_civil (mkCivil y m d) + 719468 = era * 146097 + doe) as Hz.
  { unfold days_from_civil; cbn [cd_year cd_month cd_day].
    fold y'. fold era. fold yoe. fold mp. fold doy. fold doe. lia. }
  assert (m = 1 \/ m = 2 \/ m = 3 \/ m = 4 \/ m = 5 \/ m = 6 \/ m = 7 \/
          m = 8 \/ m = 9 \/ m = 10 \/ m = 11 \/ m = 12) as Hcases by lia.
  assert (0 <= yoe < 400) as Hyoe by (subst yoe era; euclid).
  assert (yoe / 100 = 0 \/ yoe / 100 = 1 \/ yoe / 100 = 2 \/ yoe / 100 = 3)
    as Hc by euclid.
  assert (0 <= mp <= 11 /\ m = (if mp <? 10 then mp + 3 else mp - 9) /\
          y = (if m <=? 2 then y' + 1 else y')) as (Hmp & Hm' & Hy')
    by (subst mp y'; bools; lia).
  assert (0 <= doy < 366 /\
          (doy = 365 ->
           (yoe + 1) mod 4 = 0 /\
           ((yoe + 1) mod 100 <> 0 \/ (yoe + 1) mod 400 = 0)) /\
          mp = (5 * doy + 2) / 153 /\ d = doy - (153 * mp + 2) / 5 + 1)
    as (Hdoy & Hleap & Hmp' & Hd').
  { subst doy mp yoe era y'. clear Hz Hyoe Hc Hmp Hm' Hy' doe.
    repeat destruct Hcases as [-> | Hcases]; try subst m; cbn in Hd |- *;
      bools; repeat split; euclid. }
  clearbody doy.
  assert (0 <= doe < 146097 /\
          yoe = (doe - doe / 1460 + doe / 36524 - doe / 146096) / 365)
    as (Hdoe & Hyoe').
  { subst doe. clear Hz.
    destruct Hc as [Hc|[Hc|[Hc|Hc]]]; rewrite ?Hc in *; split; euclid. }
  rewrite (civil_from_days_by_parts _ era doe yoe doy mp Hz Hdoe Hyoe');
    [| subst doe; lia | exact Hmp'].
  rewrite <- Hm', <- Hd'. f_equal.
  rewrite Hy'. subst yoe. destruct (m <=? 2); lia.
Qed.

Lemma days_from_civil_injective (c1 c2 : CivilDate) :
  calendar_date c1 -> calendar_date c2 ->
  days_from_civil c1 = days_from_civil c2 -> c1 = c2.
Proof.
  intros H1 H2 E.
  rewrite <- (civil_from_days_from_civil c1 H1),
    <- (civil_from_days_from_civil c2 H2).
  by rewrite E.
Qed.

(** A time value has one reading. *)
Lemma reads_as_unique (t offset y1 m1 d1 hh1 mi1 ss1 y2 m2 d2 hh2 mi2 ss2 : Z)
    (pm1 pm2 : bool) :
  reads_as t offset y1 m1 d1 hh1 mi1 ss1 pm1 ->
  reads_as t offset y2 m2 d2 hh2 mi2 ss2 pm2 ->
  (y1, m1, d1, hh1, mi1, ss1, pm1) = (y2, m2, d2, hh2, mi2, ss2, pm2).
Proof.
  intros (C1 & Hh1 & Hmi1 & Hs1 & E1) (C2 & Hh2 & Hmi2 & Hs2 & E2).
  assert (days_from_civil (mkCivil y1 m1 d1) = days_from_civil (mkCivil y2 m2 d2)
          /\ hour_of_day hh1 pm1 = hour_of_day hh2 pm2
          /\ mi1 = mi2 /\ ss1 = ss2) as (Hd & Hh & -> & ->).
  { revert E1 E2.
    unfold hour_of_day, msPerDay, msPerHour, msPerMinute, msPerSecond.
    destruct pm1, pm2; euclid. }
  pose proof (days_from_civil_injective _ _ C1 C2 Hd) as Hc.
  injection Hc as -> -> ->.
  assert (hh1 = hh2 /\ pm1 = pm2) as [-> ->]; [|reflexivity].
  unfold hour_of_day in Hh.
  destruct pm1, pm2; first [split; [euclid | reflexivity] | exfalso; euclid].
Qed.

Lemma time_of_day_range (t : Z) :
  0 <= HourFromTime t < 24 /\ 0 <= MinFromTime t < 60 /\
  0 <= SecFromTime t < 60.
Proof. unfold HourFromTime, MinFromTime, SecFromTime. euclid. Qed.

(** A time value is its day, its time of day and its milliseconds. *)
Lemma time_decomposition (t : Z) :
  Day t * msPerDay + HourFromTime t * msPerHour
  + MinFromTime t * msPerMinute + SecFromTime t * msPerSecond
  + msFromTime t = t.
Proof.
  unfold Day, HourFromTime, MinFromTime, SecFromTime, msFromTime,
    msPerDay, msPerHour, msPerMinute, msPerSecond.
  euclid.
Qed.

Lemma hour_of_12_range (h : Z) : 1 <= hour_of_12 h <= 12.
Proof. unfold hour_of_12. case_match; euclid. Qed.

Lemma hour_of_day_of_12 (h : Z) :
  0 <= h < 24 -> hour_of_day (hour_of_12 h) (negb (h <? 12)) = h.
Proof.
  intros Hh. unfold hour_of_day, hour_of_12.
  destruct (Z.ltb_spec h 12); destruct (Z.eqb_spec (h mod 12) 0);
    cbn [negb]; euclid.
Qed.

Lemma en_US_month_name (m : Z) :
  1 <= m <= 12 ->
  nth_error month_names (Z.to_nat (m - 1)) = Some (en_US_month m).
Proof.
  intros Hm.
  assert (m = 1 \/ m = 2 \/ m = 3 \/ m = 4 \/ m = 5 \/ m = 6 \/ m = 7 \/
          m = 8 \/ m = 9 \/ m = 10 \/ m = 11 \/ m = 12) as Hcases by lia.
  repeat destruct Hcases as [-> | Hcases]; try subst m; reflexivity.
Qed.

Lemma append_assoc (a b c : string) : (a +:+ b) +:+ c = a +:+ (b +:+ c).
Proof.
  induction a as [|x a IH]; [reflexivity|].
  change (String x ((a +:+ b) +:+ c) = String x (a +:+ (b +:+ c))).
  by rewrite IH.
Qed.

Lemma length_append (a b : string) :
  String.length (a +:+ b) = (String.length a + String.length b)%nat.
Proof.
  induction a as [|x a IH]; [reflexivity|].
  change (S (String.length (a +:+ b))
          = S (String.length a + String.length b)%nat).
  by rewrite IH.
Qed.

Lemma length_two_digits (n : Z) : String.length (two_digits n) = 2%nat.
Proof. reflexivity. Qed.

(** With the options of [formatGMT8], the en-US rendering is the display
    format of the specification. *)
Lemma render_formatGMT8_options (f : LocalFields) :
  render en_US formatGMT8_options f
  = display_12h (en_US_month (lf_month f)) (lf_day f) (era_year (lf_year f))
      (hour_of_12 (lf_hour f)) (lf_minute f) (lf_second f)
      (negb (lf_hour f <? 12)).
Proof.
  unfold render, render_date, render_time, display_12h.
  cbn [formatGMT8_options month day year hour hour12 styled render_month
       en_US month_abbrev date_separator datetime_separator
       day_period_separator am_marker pm_marker].
  rewrite !append_assoc.
  destruct (lf_hour f <? 12); reflexivity.
Qed.

(** A four-digit year prints as four digits. *)
Lemma decimal_four_digits (n : Z) :
  1000 <= n <= 9999 -> String.length (decimal n) = 4%nat.
Proof.
  intros Hn. unfold decimal.
  assert (9 <= Z.log2 n) as Hlog.
  { change 9 with (Z.log2 1000). apply Z.log2_le_mono. lia. }
  destruct (Z.to_nat (Z.log2 n)) as [|[|[|k]]] eqn:Hk; try lia.
  cbn [decimal_go].
  assert ((n / 10 =? 0) = false) as -> by (apply Z.eqb_neq; euclid).
  assert ((n / 10 / 10 =? 0) = false) as -> by (apply Z.eqb_neq; euclid).
  assert ((n / 10 / 10 / 10 =? 0) = false) as -> by (apply Z.eqb_neq; euclid).
  assert ((n / 10 / 10 / 10 / 10 =? 0) = true) as -> by (apply Z.eqb_eq; euclid).
  reflexivity.
Qed.

(* ===================================================================== *)
(** * Proof support                                                       *)
(* ===================================================================== *)

Create HintDb runs.
#[export] Hint Constructors tick_run manual_run answered : runs.

(** Unfolds the monad and the primitives, leaving the collaborators'
    answers to case analysis. *)
Ltac unfold_monad :=
  unfold bind, try_catch, ret, throw, lift, await, print, console_log,
    console_error, process_env, new_Date, record, set_console, set_events,
    set_heap, set_ext, set_env in *.

Ltac collaborator_cases :=
  repeat match goal with
  | |- context [getClient ?x] =>
      destruct (getClient x) as [[? | ?] ?] eqn:?; cbn
  | |- context [createFullBackup ?c ?x] =>
      destruct (createFullBackup c x) as [[? | ?] ?] eqn:?; cbn
  | |- context [uploadToSupabase ?p ?x] =>
      destruct (uploadToSupabase p x) as [[[] | ?] ?] eqn:?; cbn
  | |- context [cleanOldBackups ?k ?x] =>
      destruct (cleanOldBackups k x) as [[[] | ?] ?] eqn:?; cbn
  end.

Lemma app_cons_assoc {A : Type} (l : list A) (a : A) (l' : list A) :
  (l ++ [a]) ++ l' = l ++ a :: l'.
Proof. by rewrite <- app_assoc. Qed.

Section Properties.
Context {X : Type}.
Context {database : DatabaseService X} {backup : BackupService X}.
Context {cron : CronLibrary}.

Ltac invert_answered :=
  repeat match goal with
  | H : answered _ (_ :: _) _ |- _ => inversion H; clear H; subst
  | H : answered _ [] _ |- _ => inversion H; clear H; subst
  end.

Ltac same_answer :=
  repeat match goal with
  | H1 : ?call = (_, _), H2 : ?call = (_, _) |- _ =>
      rewrite H1 in H2; simplify_eq
  end.

(** The collaborators leave a firing no choice: from one state there is
    one run that they answer, with its lines and its final state. *)
Lemma tick_run_answered_unique (x x1 x2 : X) (t1 t2 : list Event)
    (l1 l2 : list LogEntry) :
  tick_run t1 l1 -> answered x t1 x1 ->
  tick_run t2 l2 -> answered x t2 x2 ->
  t1 = t2 /\ l1 = l2 /\ x1 = x2.
Proof.
  intros R1 A1 R2 A2.
  destruct R1; destruct R2; invert_answered; same_answer; done.
Qed.

Lemma manual_run_answered_unique (x x1 x2 : X) (t1 t2 : list Event)
    (l1 l2 : list LogEntry) (r1 r2 : result string) :
  manual_run t1 l1 r1 -> answered x t1 x1 ->
  manual_run t2 l2 r2 -> answered x t2 x2 ->
  t1 = t2 /\ l1 = l2 /\ r1 = r2 /\ x1 = x2.
Proof.
  intros R1 A1 R2 A2.
  destruct R1; destruct R2; invert_answered; same_answer; done.
Qed.

(** C2. Every firing of the scheduled callback runs the steps in order
    (get the client, [createFullBackup] on it, [uploadToSupabase] on the
    path, [cleanOldBackups(30)]), gives up the remaining steps at the
    first failure, logs that failure, returns normally whatever
    happened, and leaves the scheduler registry and the job objects as
    they were. The calls are the collaborators' own: the client is the
    one [getClient] returned, the path the one [createFullBackup]
    returned, every recorded outcome is what that collaborator answered
    in the state the previous call left, and the state after the firing
    is the one the last call left. *)
Theorem scheduledBackupTick_sequential_and_contained (w : World X) :
  exists (w' : World X) (t : list Event) (lines : list LogEntry),
    scheduledBackupTick w = (Ok tt, w') /\
    run_handler BackupTick w = (Ok tt, w') /\
    tick_run t lines /\
    answered (ext w) t (ext w') /\
    events w' = events w ++ t /\
    console w' = console w ++ lines /\
    registry w' = registry w /\
    heap w' = heap w /\
    env w' = env w.
Proof.
  unfold run_handler, scheduledBackupTick, databaseService_getClient,
    backupService_createFullBackup, backupService_uploadToSupabase,
    backupService_cleanOldBackups.
  unfold_monad; cbn.
  collaborator_cases;
    eexists _, _, _; (split; [reflexivity|]); (split; [reflexivity|]); cbn;
    rewrite ?app_cons_assoc;
    (split; [|split; [|split; [reflexivity|split; [reflexivity|done]]]]);
    eauto 10 with runs.
Qed.

(** C3. A manual trigger gets the client, creates the backup and uploads
    it, and never calls [cleanOldBackups]. When both steps succeed the
    caller receives the path that [createFullBackup] produced; when a
    step throws, the error is logged and the caller receives that same
    error. The calls are the collaborators' own: every recorded outcome,
    the returned path among them, is what that collaborator answered in
    the state the previous call left, and the state after the trigger
    is the one the last call left. *)
Theorem triggerManualBackup_create_upload_rethrow (w : World X) :
  exists (r : result string) (w' : World X) (t : list Event)
         (lines : list LogEntry),
    triggerManualBackup w = (r, w') /\
    manual_run t lines r /\
    answered (ext w) t (ext w') /\
    events w' = events w ++ t /\
    console w' = console w ++ lines /\
    forallb (fun e => negb (is_cleanOldBackups e)) t = true.
Proof.
  unfold triggerManualBackup, databaseService_getClient,
    backupService_createFullBackup, backupService_uploadToSupabase.
  unfold_monad; cbn.
  collaborator_cases;
    eexists _, _, _, _; (split; [reflexivity|]); cbn;
    rewrite ?app_cons_assoc;
    (split; [|split; [|split; [reflexivity|split; [reflexivity|]]]]);
    eauto 10 with runs.
Qed.

(** One call of [stopScheduledBackups] returns normally and writes one
    line: the confirmation, or the error it caught. With no job under
    the key, and with a job whose [stop] fails, it is the error. *)
Lemma stopScheduledBackups_returns (w : World X) :
  exists (w' : World X) (line : LogEntry),
    stopScheduledBackups w = (Ok tt, w') /\
    console w' = console w ++ [line] /\
    (line = stop_succeeded \/ exists e, line = stop_failed e) /\
    (registry w !! "database-backup" = None -> exists e, line = stop_failed e) /\
    (forall (j : nat) (job : CronJob) (e : Exn),
        registry w !! "database-backup" = Some j ->
        heap w !! j = Some job ->
        stop_fails_with job e ->
        line = stop_failed e).
Proof.
  unfold stopScheduledBackups, getCronJob, stop, stop_fails_with.
  unfold_monad; cbn.
  destruct (registry w !! "database-backup") as [j|] eqn:Hreg; cbn.
  - destruct (heap w !! j) as [job|] eqn:Hjob; cbn.
    + destruct (job_stop job) as [|[[]|e]|e] eqn:Hstop; cbn;
        eexists _, _; (split; [reflexivity|]); cbn;
        (split; [reflexivity|]);
        (split; [first [by left | right; by eexists]|]);
        (split; [intros [=]|]);
        intros j' job' e' [= <-] Hjob' Hfail;
        rewrite Hjob in Hjob'; injection Hjob' as <-;
        rewrite Hstop in Hfail; destruct Hfail as [[=] | [=]];
        by subst.
    + eexists _, _; split; [reflexivity|]; cbn.
      split; [reflexivity|]. split; [right; by eexists|].
      split; [intros [=]|].
      intros j' job' e' [= <-] Hjob'. by rewrite Hjob in Hjob'.
  - eexists _, _; split; [reflexivity|]; cbn.
    split; [reflexivity|]. split; [right; by eexists|].
    split; [intros _; by eexists|]. intros j' job' e' [=].
Qed.

(** C6. [stopScheduledBackups] never passes an error to its caller,
    whatever the registry holds: a missing job and a failing [stop] are
    caught and logged. A second call right after the first returns
    normally as well. *)
Theorem stopScheduledBackups_never_throws (w : World X) :
  exists (w1 w2 : World X) (line1 line2 : LogEntry),
    stopScheduledBackups w = (Ok tt, w1) /\
    stopScheduledBackups w1 = (Ok tt, w2) /\
    console w1 = console w ++ [line1] /\
    console w2 = console w1 ++ [line2] /\
    (line1 = stop_succeeded \/ exists e, line1 = stop_failed e) /\
    (line2 = stop_succeeded \/ exists e, line2 = stop_failed e) /\
    (registry w !! "database-backup" = None -> exists e, line1 = stop_failed e) /\
    (forall (j : nat) (job : CronJob) (e : Exn),
        registry w !! "database-backup" = Some j ->
        heap w !! j = Some job ->
        stop_fails_with job e ->
        line1 = stop_failed e).
Proof.
  destruct (stopScheduledBackups_returns w)
    as (w1 & l1 & E1 & C1 & K1 & N1 & F1).
  destruct (stopScheduledBackups_returns w1) as (w2 & l2 & E2 & C2 & K2 & _).
  by exists w1, w2, l1, l2.
Qed.

(** [getScheduleStatus] has two ways out: the full report from the end
    of its [try] block, with nothing written, or the degraded record
    from its [catch] block, with the caught error written. *)
Lemma getScheduleStatus_cases (icu : LocaleData) (w : World X) :
  exists w' : World X,
    (exists r : StatusReport,
        getScheduleStatus icu w = (Ok (Report r), w') /\
        sr_enabled r = true /\
        sr_cronExpression r = configured_cron (env w) /\
        sr_timezone r = configured_timezone (env w) /\
        is_Some (registry w !! "database-backup") /\
        console w' = console w)
    \/
    (exists e : Exn,
        getScheduleStatus icu w = (Ok (degraded_record (env w)), w') /\
        console w' = console w ++ [status_failed e]).
Proof.
  unfold getScheduleStatus, getCronJob, nextDate, lastDate, formatGMT8,
    toJSDate_unless_Date, toLocaleString, toISOString, truthy.
  unfold_monad; cbn.
  destruct (registry w !! "database-backup") as [j|] eqn:Hreg; cbn;
    [|eexists; right; eexists; split; reflexivity].
  destruct (heap w !! j) as [job|] eqn:Hjob; cbn;
    [|eexists; right; eexists; split; reflexivity].
  destruct (job_nextDate job) as [[|[tn|]|[tn|]|]|en] eqn:Hnext; cbn;
    rewrite ?Hjob; cbn;
    try (eexists; right; eexists; split; reflexivity);
    destruct (job_lastDate job) as [[|[tl|]|[tl|]|]|el] eqn:Hlast; cbn;
    try (eexists; right; eexists; split; reflexivity);
    destruct (zone_offset_minutes icu "Asia/Manila") as [off|] eqn:Hzone; cbn;
    try (eexists; right; eexists; split; reflexivity);
    eexists; left; eexists; (split; [reflexivity|]); cbn; eauto 10.
Qed.

(** C4. [getScheduleStatus] returns a record in every state of the
    registry and of the job: it never throws. With no job under the key
    the record is the degraded one, [enabled: false] with the configured
    cron expression and the error text; and a degraded record is never
    anything else. *)
Theorem getScheduleStatus_never_throws (icu : LocaleData) (w : World X) :
  exists (s : ScheduleStatus) (w' : World X),
    getScheduleStatus icu w = (Ok s, w') /\
    ((exists r, s = Report r) \/ s = degraded_record (env w)) /\
    (registry w !! "database-backup" = None -> s = degraded_record (env w)).
Proof.
  destruct (getScheduleStatus_cases icu w)
    as (w' & [(r & E & _ & _ & _ & Hreg & _) | (e & E & _)]).
  - exists (Report r), w'. split; [exact E|]. split; [left; by exists r|].
    intros Hnone. rewrite Hnone in Hreg. by destruct Hreg.
  - exists (degraded_record (env w)), w'. split; [exact E|].
    split; [by right|done].
Qed.

(** The status depends on the environment through [BACKUP_CRON] and
    [BACKUP_TIMEZONE] only. *)
Lemma getScheduleStatus_reads_two_variables (icu : LocaleData)
    (w : World X) (e' : gmap string string) :
  e' !! "BACKUP_CRON" = env w !! "BACKUP_CRON" ->
  e' !! "BACKUP_TIMEZONE" = env w !! "BACKUP_TIMEZONE" ->
  (getScheduleStatus icu (set_env e' w)).1 = (getScheduleStatus icu w).1.
Proof.
  intros Hcron Htz.
  unfold getScheduleStatus, getCronJob, nextDate, lastDate, formatGMT8,
    toJSDate_unless_Date, toLocaleString, toISOString, truthy.
  unfold_monad; cbn.
  destruct (registry w !! "database-backup") as [j|]; cbn;
    rewrite ?Hcron, ?Htz; [|reflexivity].
  destruct (heap w !! j) as [job|] eqn:Hjob; cbn;
    rewrite ?Hcron, ?Htz; [|reflexivity].
  destruct (job_nextDate job) as [[|[tn|]|[tn|]|]|en]; cbn;
    rewrite ?Hjob; cbn; rewrite ?Hcron, ?Htz; try reflexivity;
    destruct (job_lastDate job) as [[|[tl|]|[tl|]|]|el]; cbn;
    rewrite ?Hcron, ?Htz; try reflexivity;
    destruct (zone_offset_minutes icu "Asia/Manila") as [off|]; cbn;
    rewrite ?Hcron, ?Htz; reflexivity.
Qed.

(** C9. When [getScheduleStatus] answers from the end of its [try] block
    (which takes a job under the key), the record says [enabled: true],
    and it is the same record whatever [BACKUP_ENABLED] holds, set to any
    string or unset: the flag is not consulted. *)
Theorem getScheduleStatus_report_ignores_enabled_flag (icu : LocaleData)
    (w w' : World X) (r : StatusReport) :
  getScheduleStatus icu w = (Ok (Report r), w') ->
  sr_enabled r = true /\
  is_Some (registry w !! "database-backup") /\
  forall flag : option string,
    (getScheduleStatus icu
       (set_env (partial_alter (fun _ => flag) "BACKUP_ENABLED" (env w)) w)).1
    = Ok (Report r).
Proof.
  intros E.
  destruct (getScheduleStatus_cases icu w)
    as (w1 & [(r1 & E1 & Hen & _ & _ & Hreg & _) | (e & E1 & _)]);
    rewrite E in E1; [|discriminate].
  injection E1 as -> ->.
  split; [exact Hen|]. split; [exact Hreg|].
  intros flag.
  rewrite getScheduleStatus_reads_two_variables.
  - by rewrite E.
  - by rewrite lookup_partial_alter_ne.
  - by rewrite lookup_partial_alter_ne.
Qed.

(** ** Computations that only look *)

Lemma read_only_pure {A : Type} (m : M X A) :
  (forall w, (m w).2 = w) -> read_only m.
Proof.
  intros Hm w. exists []. rewrite Hm, app_nil_r. done.
Qed.

Lemma read_only_ret {A : Type} (a : A) : read_only (ret a : M X A).
Proof. by apply read_only_pure. Qed.

Lemma read_only_throw {A : Type} (e : Exn) : read_only (throw e : M X A).
Proof. by apply read_only_pure. Qed.

Lemma read_only_lift {A : Type} (r : result A) : read_only (lift r : M X A).
Proof. by apply read_only_pure. Qed.

Lemma read_only_process_env (name : string) :
  read_only (process_env name : M X _).
Proof. by apply read_only_pure. Qed.

Lemma read_only_new_Date : read_only (new_Date : M X _).
Proof. by apply read_only_pure. Qed.

Lemma read_only_formatGMT8 (icu : LocaleData) (d : JSDate) :
  read_only (formatGMT8 icu d : M X _).
Proof. by apply read_only_pure. Qed.

Lemma read_only_toJSDate_unless_Date (v : CronDate) :
  read_only (toJSDate_unless_Date v : M X _).
Proof. destruct v; by apply read_only_pure. Qed.

Lemma read_only_print (l : LogEntry) : read_only (print l : M X _).
Proof. intros w. exists []. by rewrite app_nil_r. Qed.

Lemma read_only_getCronJob (name : string) :
  read_only (getCronJob name : M X _).
Proof.
  intros w. exists [EvGetCronJob name]. unfold getCronJob.
  destruct (registry w !! name); done.
Qed.

Lemma read_only_nextDate (j : nat) : read_only (nextDate j : M X _).
Proof.
  intros w. exists [EvNextDate j]. unfold nextDate.
  destruct (heap w !! j); done.
Qed.

Lemma read_only_lastDate (j : nat) : read_only (lastDate j : M X _).
Proof.
  intros w. exists [EvLastDate j]. unfold lastDate.
  destruct (heap w !! j); done.
Qed.

(** Looking twice is still only looking. *)
Lemma read_only_then (w w1 w2 : World X) (t1 t2 : list Event) :
  env w1 = env w /\ clock w1 = clock w /\ heap w1 = heap w /\
  registry w1 = registry w /\ ext w1 = ext w /\
  events w1 = events w ++ t1 /\ forallb is_query t1 = true ->
  env w2 = env w1 /\ clock w2 = clock w1 /\ heap w2 = heap w1 /\
  registry w2 = registry w1 /\ ext w2 = ext w1 /\
  events w2 = events w1 ++ t2 /\ forallb is_query t2 = true ->
  env w2 = env w /\ clock w2 = clock w /\ heap w2 = heap w /\
  registry w2 = registry w /\ ext w2 = ext w /\
  events w2 = events w ++ (t1 ++ t2) /\ forallb is_query (t1 ++ t2) = true.
Proof.
  intros (E1 & C1 & H1 & R1 & X1 & T1 & Q1) (E2 & C2 & H2 & R2 & X2 & T2 & Q2).
  repeat split; try congruence.
  - by rewrite T2, T1, app_assoc.
  - by rewrite forallb_app, Q1, Q2.
Qed.

Lemma read_only_bind {A B : Type} (m : M X A) (k : A -> M X B) :
  read_only m -> (forall a, read_only (k a)) -> read_only (bind m k).
Proof.
  intros Hm Hk w. destruct (Hm w) as (t1 & H1).
  unfold bind. destruct (m w) as [[a | e] w1] eqn:Emw; cbn in H1.
  - destruct (Hk a w1) as (t2 & H2). exists (t1 ++ t2).
    by apply (read_only_then w w1).
  - by exists t1.
Qed.

Lemma read_only_try_catch {A : Type} (m : M X A) (h : Exn -> M X A) :
  read_only m -> (forall e, read_only (h e)) -> read_only (try_catch m h).
Proof.
  intros Hm Hh w. destruct (Hm w) as (t1 & H1).
  unfold try_catch. destruct (m w) as [[a | e] w1] eqn:Emw; cbn in H1.
  - by exists t1.
  - destruct (Hh e w1) as (t2 & H2). exists (t1 ++ t2).
    by apply (read_only_then w w1).
Qed.

Lemma read_only_if {A : Type} (b : bool) (m1 m2 : M X A) :
  read_only m1 -> read_only m2 -> read_only (if b then m1 else m2).
Proof. by destruct b. Qed.

Create HintDb looks.
#[local] Hint Resolve read_only_ret read_only_throw read_only_lift
  read_only_process_env read_only_new_Date read_only_formatGMT8
  read_only_toJSDate_unless_Date read_only_print read_only_getCronJob
  read_only_nextDate read_only_lastDate read_only_if : looks.

Ltac looks :=
  repeat first
    [ apply read_only_try_catch
    | apply read_only_bind
    | apply read_only_if
    | match goal with |- forall _, _ => intro end
    | solve [unfold console_log, console_error; auto with looks] ].

Lemma read_only_getScheduleStatus (icu : LocaleData) :
  read_only (getScheduleStatus icu : M X _).
Proof. unfold getScheduleStatus. looks. Qed.

(** C10. [getScheduleStatus] only looks. On either way out, the
    scheduler registry, the job objects, the environment and the state of
    the backup collaborators are what they were before the call, and the
    only calls it has made are the registry lookup and the two fire-time
    queries: no [createFullBackup], [uploadToSupabase] or
    [cleanOldBackups], no [stop], no job construction. *)
Theorem getScheduleStatus_changes_nothing (icu : LocaleData) (w : World X) :
  exists t : list Event,
    registry (getScheduleStatus icu w).2 = registry w /\
    heap (getScheduleStatus icu w).2 = heap w /\
    env (getScheduleStatus icu w).2 = env w /\
    ext (getScheduleStatus icu w).2 = ext w /\
    events (getScheduleStatus icu w).2 = events w ++ t /\
    forallb is_query t = true.
Proof.
  destruct (read_only_getScheduleStatus icu w) as (t & E & _ & H & R & Y & T & Q).
  by exists t.
Qed.

(** ** Registration *)

Lemma strict_neq_false (v : option string) (s : string) :
  strict_neq v s = false <-> v = Some s.
Proof.
  destruct v as [s'|]; cbn; [|split; discriminate].
  rewrite negb_false_iff, String.eqb_eq. split; congruence.
Qed.

Lemma strict_neq_true (v : option string) (s : string) :
  v <> Some s -> strict_neq v s = true.
Proof.
  intros Hv. destruct (strict_neq v s) eqn:E; [done|].
  by apply strict_neq_false in E.
Qed.

Lemma scheduleBackups_disabled (icu : LocaleData) (w : World X) :
  env w !! "BACKUP_ENABLED" = Some "false" ->
  scheduleBackups icu w
  = (Ok tt, set_console (console w ++ [disabled_line]) w).
Proof.
  intros Hflag. unfold scheduleBackups.
  unfold_monad; cbn. rewrite Hflag. reflexivity.
Qed.

(** On the enabled path the constructor is the first call made, with the
    configured schedule and [start = false]; every later call is a
    fire-time query, and the registry is not written. *)
Lemma scheduleBackups_enabled (icu : LocaleData) (w : World X) :
  env w !! "BACKUP_ENABLED" <> Some "false" ->
  exists (r : result unit) (w' : World X) (rest : list Event),
    scheduleBackups icu w = (r, w') /\
    events w'
    = events w
      ++ EvNewCronJob (configured_cron (env w)) (configured_timezone (env w))
           false :: rest /\
    forallb is_query rest = true /\
    registry w' = registry w /\
    (cron_rejects (configured_cron (env w)) (configured_timezone (env w))
     = None ->
     heap w'
     = heap w ++ [fresh_job (configured_cron (env w))
                    (configured_timezone (env w)) (clock w)]) /\
    (forall e,
       cron_rejects (configured_cron (env w)) (configured_timezone (env w))
       = Some e ->
       r = Throw e /\ heap w' = heap w /\
       console w'
       = console w ++ [scheduling_line (configured_cron (env w))
                         (configured_timezone (env w))]).
Proof.
  intros Hflag. apply strict_neq_true in Hflag.
  unfold scheduleBackups, new_CronJob, nextDate, formatGMT8,
    toJSDate_unless_Date, toLocaleString, toISOString.
  unfold_monad; cbn. rewrite Hflag. cbn.
  fold (configured_cron (env w)). fold (configured_timezone (env w)).
  destruct (cron_rejects _ _) as [e|] eqn:Hrej; cbn.
  { eexists _, _, []. split; [reflexivity|]. cbn.
    split; [done|]. split; [done|]. split; [done|].
    split; [intros [=]|]. by intros e' [= <-]. }
  rewrite list_lookup_middle by done. cbn. unfold fresh_job.
  destruct (cron_next _ _ _) as [[|[tn|]|[tn|]|]|en] eqn:Hnext; cbn;
    try (eexists _, _, [_]; split; [reflexivity|]; cbn;
         rewrite ?app_cons_assoc;
         split; [reflexivity|]; split; [reflexivity|]; split; [done|];
         split; [done|]; by intros ? [=]);
    destruct (zone_offset_minutes icu "Asia/Manila") as [off|]; cbn;
    eexists _, _, [_]; (split; [reflexivity|]); cbn;
    rewrite ?app_cons_assoc;
    (split; [reflexivity|]); (split; [reflexivity|]); (split; [done|]);
    (split; [done|]); by intros ? [=].
Qed.

Lemma scheduleBackups_keeps_registry (icu : LocaleData) (w : World X) :
  registry (scheduleBackups icu w).2 = registry w.
Proof.
  destruct (decide (env w !! "BACKUP_ENABLED" = Some "false")) as [Hoff | Hon].
  - by rewrite scheduleBackups_disabled.
  - destruct (scheduleBackups_enabled icu w Hon) as (r & w' & rest & E & _ & _ & R & _).
    by rewrite E.
Qed.

(** C5. With [BACKUP_ENABLED] equal to the string [false],
    [scheduleBackups] writes one line and returns: no job is
    constructed, nothing is registered. With any other value, or with
    the variable unset, it goes on to construct the job, from the
    configured cron expression and time zone; these are [0 2 * * *] and
    [UTC] when [BACKUP_CRON] and [BACKUP_TIMEZONE] are unset. *)
Theorem scheduleBackups_enabled_flag_and_defaults (icu : LocaleData)
    (w : World X) :
  (env w !! "BACKUP_ENABLED" = Some "false" ->
   scheduleBackups icu w
   = (Ok tt, set_console (console w ++ [disabled_line]) w)) /\
  (env w !! "BACKUP_ENABLED" <> Some "false" ->
   exists (r : result unit) (w' : World X) (rest : list Event),
     scheduleBackups icu w = (r, w') /\
     events w'
     = events w
       ++ EvNewCronJob (configured_cron (env w))
            (configured_timezone (env w)) false :: rest) /\
  (env w !! "BACKUP_CRON" = None -> configured_cron (env w) = "0 2 * * *") /\
  (env w !! "BACKUP_TIMEZONE" = None -> configured_timezone (env w) = "UTC").
Proof.
  split; [apply scheduleBackups_disabled|].
  split.
  - intros Hon.
    destruct (scheduleBackups_enabled icu w Hon) as (r & w' & rest & E & T & _).
    by exists r, w', rest.
  - unfold configured_cron, configured_timezone.
    split; intros ->; reflexivity.
Qed.

(** C7. When the [CronJob] constructor throws on the configured cron
    expression or time zone, [scheduleBackups] (and [onModuleInit], which
    calls it) ends with that very error thrown to its caller. Nothing
    catches it: no error line is written, and no job exists
    afterwards. *)
Theorem scheduleBackups_propagates_constructor_error (icu : LocaleData)
    (w : World X) (e : Exn) :
  env w !! "BACKUP_ENABLED" <> Some "false" ->
  cron_rejects (configured_cron (env w)) (configured_timezone (env w))
  = Some e ->
  exists w' : World X,
    scheduleBackups icu w = (Throw e, w') /\
    onModuleInit icu w = (Throw e, w') /\
    console w'
    = console w ++ [scheduling_line (configured_cron (env w))
                      (configured_timezone (env w))] /\
    heap w' = heap w /\
    registry w' = registry w.
Proof.
  intros Hon Hrej.
  destruct (scheduleBackups_enabled icu w Hon)
    as (r & w' & rest & E & _ & _ & R & _ & Hthrow).
  destruct (Hthrow e Hrej) as (-> & Hheap & Hcon).
  exists w'. unfold onModuleInit. by rewrite E.
Qed.

(** The display zone plays no part in what [scheduleBackups] leaves
    behind: two runtimes that format differently end in worlds that
    differ in their consoles only. *)
Lemma scheduleBackups_display_only (icu1 icu2 : LocaleData) (w : World X) :
  silenced (scheduleBackups icu1 w).2 = silenced (scheduleBackups icu2 w).2.
Proof.
  unfold scheduleBackups, new_CronJob, nextDate, formatGMT8,
    toJSDate_unless_Date, toLocaleString, toISOString, silenced.
  unfold_monad; cbn.
  destruct (strict_neq _ _); cbn; [|reflexivity].
  destruct (cron_rejects _ _) as [e|]; cbn; [reflexivity|].
  rewrite list_lookup_middle by done. cbn.
  destruct (cron_next _ _ _) as [[|[tn|]|[tn|]|]|en]; cbn; try reflexivity;
    destruct (zone_offset_minutes icu1 "Asia/Manila");
    destruct (zone_offset_minutes icu2 "Asia/Manila"); reflexivity.
Qed.

Lemma length_en_US_month (m : Z) : String.length (en_US_month m) = 3%nat.
Proof.
  unfold en_US_month.
  repeat (match goal with |- context [match ?x with _ => _ end] =>
            destruct x end; try reflexivity).
Qed.

Lemma length_display_12h (m d y hh mi ss : Z) (pm : bool) :
  1000 <= y <= 9999 ->
  String.length (display_12h (en_US_month m) d y hh mi ss pm) = 25%nat.
Proof.
  intros Hy. unfold display_12h.
  rewrite !length_append, length_en_US_month, !length_two_digits,
    (decimal_four_digits y Hy).
  by destruct pm.
Qed.

(** C8. [formatGMT8] shows a time value on the Manila wall clock, eight
    hours ahead of UTC, as [Mon DD, YYYY, HH:MM:SS AM/PM]: a month
    abbreviation, a two-digit day, the year, and a two-digit 12-hour
    time. The date shown is a date of the calendar, and date and time
    are the reading of the time value plus eight hours: they add up to
    it, and no other calendar date and time of day do. The text has 25
    characters for a four-digit year. The instant 2024-06-15T10:00:00Z
    reads [Jun 15, 2024, 06:00:00 PM]. The text is for display: what
    [scheduleBackups] constructs and leaves behind is the same whatever
    the formatter prints. *)
Theorem formatGMT8_manila_12_hour_display :
  (forall (t : Z) (w : World X),
     exists (y m d hh mi ss : Z) (pm : bool) (mon : string),
       formatGMT8 en_US (ValidDate t) w
       = (Ok (display_12h mon d (era_year y) hh mi ss pm), w) /\
       nth_error month_names (Z.to_nat (m - 1)) = Some mon /\
       1 <= m <= 12 /\ 1 <= d <= 31 /\ 1 <= hh <= 12 /\
       0 <= mi < 60 /\ 0 <= ss < 60 /\
       days_from_civil (mkCivil y m d) * msPerDay
       + hour_of_day hh pm * msPerHour + mi * msPerMinute
       + ss * msPerSecond + t mod msPerSecond
       = t + 8 * msPerHour /\
       (four_digit_year (t + 8 * msPerHour) ->
        String.length (display_12h mon d (era_year y) hh mi ss pm) = 25%nat) /\
       reads_as t (8 * msPerHour) y m d hh mi ss pm /\
       (forall (y' m' d' hh' mi' ss' : Z) (pm' : bool),
          reads_as t (8 * msPerHour) y' m' d' hh' mi' ss' pm' ->
          (y', m', d', hh', mi', ss', pm') = (y, m, d, hh, mi, ss, pm))) /\
  (forall w : World X,
     formatGMT8 en_US (ValidDate 1718445600000) w
     = (Ok "Jun 15, 2024, 06:00:00 PM", w)) /\
  (forall (icu1 icu2 : LocaleData) (w : World X),
     silenced (scheduleBackups icu1 w).2
     = silenced (scheduleBackups icu2 w).2).
Proof.
  split; [|split].
  - intros t w.
    unfold formatGMT8, lift, toLocaleString.
    change (zone_offset_minutes en_US (timeZone formatGMT8_options))
      with (Some 480).
    cbv beta iota.
    rewrite render_formatGMT8_options.
    unfold local_fields; cbn [lf_year lf_month lf_day lf_hour lf_minute lf_second].
    set (lt := t + 480 * msPerMinute).
    destruct (civil_from_days_range (Day lt)) as [Hm Hd].
    destruct (time_of_day_range lt) as (Hh & Hmi & Hs).
    pose proof (hour_of_12_range (HourFromTime lt)) as Hh12.
    assert (days_from_civil
              (mkCivil (cd_year (civil_from_days (Day lt)))
                 (cd_month (civil_from_days (Day lt)))
                 (cd_day (civil_from_days (Day lt)))) * msPerDay
            + hour_of_day (hour_of_12 (HourFromTime lt))
                (negb (HourFromTime lt <? 12)) * msPerHour
            + MinFromTime lt * msPerMinute
            + SecFromTime lt * msPerSecond + t mod msPerSecond
            = t + 8 * msPerHour) as Hsum.
    { rewrite hour_of_day_of_12 by exact Hh.
      replace (mkCivil _ _ _) with (civil_from_days (Day lt))
        by (by destruct (civil_from_days (Day lt))).
      rewrite days_from_civil_from_days.
      pose proof (time_decomposition lt) as Hdec.
      assert (msFromTime lt = t mod msPerSecond) as Hms.
      { unfold msFromTime, lt, msPerMinute, msPerSecond. euclid. }
      rewrite Hms in Hdec. rewrite Hdec.
      unfold lt, msPerMinute, msPerHour. lia. }
    assert (reads_as t (8 * msPerHour)
              (cd_year (civil_from_days (Day lt)))
              (cd_month (civil_from_days (Day lt)))
              (cd_day (civil_from_days (Day lt)))
              (hour_of_12 (HourFromTime lt)) (MinFromTime lt)
              (SecFromTime lt) (negb (HourFromTime lt <? 12))) as Hreads.
    { split;
        [|split; [exact Hh12|split; [exact Hmi|split; [exact Hs|exact Hsum]]]].
      replace (mkCivil _ _ _) with (civil_from_days (Day lt))
        by (by destruct (civil_from_days (Day lt))).
      apply civil_from_days_calendar. }
    exists (cd_year (civil_from_days (Day lt))),
      (cd_month (civil_from_days (Day lt))),
      (cd_day (civil_from_days (Day lt))),
      (hour_of_12 (HourFromTime lt)), (MinFromTime lt), (SecFromTime lt),
      (negb (HourFromTime lt <? 12)),
      (en_US_month (cd_month (civil_from_days (Day lt)))).
    split; [reflexivity|].
    split; [by apply en_US_month_name|].
    split; [exact Hm|]. split; [exact Hd|].
    split; [exact Hh12|].
    split; [exact Hmi|]. split; [exact Hs|].
    split; [exact Hsum|].
    split; [|split; [exact Hreads|]].
    + intros Hy. apply length_display_12h.
      assert (1000 <= cd_year (civil_from_days (Day lt)) <= 9999) as Hyear.
      { apply civil_from_days_four_digit_year.
        unfold four_digit_year in Hy. revert Hy.
        change (days_from_civil (mkCivil 1000 1 1)) with (-354285).
        change (days_from_civil (mkCivil 10000 1 1)) with 2932897.
        unfold Day, lt, msPerDay, msPerHour, msPerMinute. euclid. }
      unfold era_year.
      destruct (Z.ltb_spec 0 (cd_year (civil_from_days (Day lt)))); lia.
    + intros y' m' d' hh' mi' ss' pm' Hother.
      exact (reads_as_unique _ _ _ _ _ _ _ _ _ _ _ _ _ _ _ _ Hother Hreads).
  - intros w. unfold formatGMT8, lift. by vm_compute.
  - apply scheduleBackups_display_only.
Qed.

End Properties.

(* ===================================================================== *)
(** * The properties at concrete worlds                                   *)
(* ===================================================================== *)

(** C1. A process that starts with nothing configured and an empty
    registry, on a cron library that accepts the default schedule:
    [scheduleBackups] returns normally having constructed the job with
    [start = false] and asked it for its next date. It has not put it in
    the registry and has not started it: no job is registered under
    [database-backup], and the constructed job is not running. In every
    world, [scheduleBackups] leaves the registry as it found it. *)
Theorem scheduleBackups_registers_no_job :
  (exists w' : World Script,
      @scheduleBackups Script daily_cron en_US (boot ∅ all_well) = (Ok tt, w') /\
      registry w' !! "database-backup" = None /\
      size (registry w') = 0%nat /\
      heap w' = [@fresh_job daily_cron "0 2 * * *" "UTC" june_15] /\
      job_running (@fresh_job daily_cron "0 2 * * *" "UTC" june_15) = false /\
      events w' = [EvNewCronJob "0 2 * * *" "UTC" false; EvNextDate 0]) /\
  (forall (X : Type) (cron : CronLibrary) (icu : LocaleData) (w : World X),
      registry (scheduleBackups icu w).2 = registry w).
Proof.
  split.
  - eexists. split; [vm_compute; reflexivity|]. cbn [registry heap events].
    repeat split; reflexivity.
  - intros X cron icu w. apply scheduleBackups_keeps_registry.
Qed.

(** ** Runs on the test doubles *)

Example tick_on_a_full_disk :
  @scheduledBackupTick Script scripted_database scripted_backup
    (boot ∅ disk_full)
  = (Ok tt,
     {| env := ∅; clock := june_15; heap := []; registry := ∅;
        console := [tick_started; tick_failed (Error "ENOSPC")];
        events := [EvGetClient (Ok 7%nat);
                   EvCreateFullBackup 7%nat (Throw (Error "ENOSPC"))];
        ext := disk_full |}).
Proof. reflexivity. Qed.

Example tick_when_all_is_well :
  events (@scheduledBackupTick Script scripted_database scripted_backup
            (boot ∅ all_well)).2
  = [EvGetClient (Ok 7%nat);
     EvCreateFullBackup 7%nat (Ok "backups/full-2024-06-15.sql");
     EvUploadToSupabase "backups/full-2024-06-15.sql" (Ok tt);
     EvCleanOldBackups 30 (Ok tt)].
Proof. reflexivity. Qed.

Example manual_when_all_is_well :
  (@triggerManualBackup Script scripted_database scripted_backup
     (boot ∅ all_well)).1
  = Ok "backups/full-2024-06-15.sql".
Proof. reflexivity. Qed.

Example manual_with_the_bucket_down :
  (@triggerManualBackup Script scripted_database scripted_backup
     (boot ∅ bucket_down)).1
  = Throw (Error "upload failed").
Proof. reflexivity. Qed.

Example status_of_a_registered_job :
  (getScheduleStatus en_US (with_job ∅ sample_job)).1
  = Ok (Report
          {| sr_enabled := true;
             sr_cronExpression := "0 2 * * *";
             sr_timezone := "UTC";
             sr_nextRun := "2024-06-16T02:00:00.000Z";
             sr_nextRunLocal := "Jun 16, 2024, 10:00:00 AM";
             sr_lastRun := "N/A";
             sr_lastRunLocal := "N/A";
             sr_serverTime := "2024-06-15T10:00:00.000Z";
             sr_serverTimeLocal := "Jun 15, 2024, 06:00:00 PM" |}).
Proof. vm_compute. reflexivity. Qed.

Example status_of_a_broken_job :
  (getScheduleStatus en_US (with_job ∅ broken_job)).1
  = Ok (degraded_record ∅).
Proof. vm_compute. reflexivity. Qed.

Example stop_of_a_broken_job :
  (stopScheduledBackups (with_job ∅ broken_job)).1 = Ok tt.
Proof. reflexivity. Qed.

(** ** Instances of the conditional properties *)

Lemma getScheduleStatus_never_throws_witness :
  registry (boot ∅ all_well) !! "database-backup" = None /\
  exists w' : World Script,
    getScheduleStatus en_US (boot ∅ all_well)
    = (Ok (degraded_record ∅), w').
Proof.
  split; [reflexivity|].
  destruct (getScheduleStatus_never_throws en_US (boot ∅ all_well))
    as (s & w' & E & _ & Hnone).
  exists w'. rewrite E, (Hnone eq_refl). reflexivity.
Defined.

Lemma scheduleBackups_enabled_flag_and_defaults_witness :
  (@scheduleBackups Script daily_cron en_US
     (boot {[ "BACKUP_ENABLED" := "false" ]} all_well)).1 = Ok tt /\
  (exists (r : result unit) (w' : World Script) (rest : list Event),
      @scheduleBackups Script daily_cron en_US
        (boot {[ "BACKUP_ENABLED" := "no" ]} all_well) = (r, w') /\
      events w' = EvNewCronJob "0 2 * * *" "UTC" false :: rest) /\
  configured_cron (∅ : gmap string string) = "0 2 * * *" /\
  configured_timezone (∅ : gmap string string) = "UTC".
Proof.
  split; [|split; [|split]].
  - rewrite (proj1 (@scheduleBackups_enabled_flag_and_defaults Script
                      daily_cron en_US
                      (boot {[ "BACKUP_ENABLED" := "false" ]} all_well)));
      reflexivity.
  - destruct (proj1 (proj2 (@scheduleBackups_enabled_flag_and_defaults Script
                      daily_cron en_US
                      (boot {[ "BACKUP_ENABLED" := "no" ]} all_well))))
      as (r & w' & rest & E & T).
    + vm_compute. discriminate.
    + exists r, w', rest. split; [exact E|]. rewrite T. reflexivity.
  - apply (proj1 (proj2 (proj2 (@scheduleBackups_enabled_flag_and_defaults
                      Script daily_cron en_US (boot ∅ all_well))))).
    reflexivity.
  - apply (proj2 (proj2 (proj2 (@scheduleBackups_enabled_flag_and_defaults
                      Script daily_cron en_US (boot ∅ all_well))))).
    reflexivity.
Defined.

Lemma stopScheduledBackups_never_throws_witness :
  registry (boot ∅ all_well) !! "database-backup" = None /\
  (exists (w1 w2 : World Script) (e : Exn),
      stopScheduledBackups (boot ∅ all_well) = (Ok tt, w1) /\
      stopScheduledBackups w1 = (Ok tt, w2) /\
      console w1 = [stop_failed e]) /\
  stop_fails_with broken_job (Error "onComplete failed") /\
  (exists w1 w2 : World Script,
      stopScheduledBackups (with_job ∅ broken_job) = (Ok tt, w1) /\
      stopScheduledBackups w1 = (Ok tt, w2) /\
      console w1 = [stop_failed (Error "onComplete failed")]).
Proof.
  split; [reflexivity|]. split; [|split; [by right|]].
  - destruct (stopScheduledBackups_never_throws (boot ∅ all_well))
      as (w1 & w2 & l1 & l2 & E1 & E2 & C1 & _ & _ & _ & Hnone & _).
    destruct (Hnone eq_refl) as (e & ->).
    by exists w1, w2, e.
  - destruct (stopScheduledBackups_never_throws (with_job ∅ broken_job))
      as (w1 & w2 & l1 & l2 & E1 & E2 & C1 & _ & _ & _ & _ & Hfail).
    rewrite (Hfail 0%nat broken_job (Error "onComplete failed")
               eq_refl eq_refl (or_intror eq_refl)) in C1.
    by exists w1, w2.
Defined.

Lemma scheduleBackups_propagates_constructor_error_witness :
  exists w' : World Script,
    @scheduleBackups Script daily_cron en_US
      (boot {[ "BACKUP_CRON" := "every day" ]} all_well)
    = (Throw (Error "Invalid cron pattern"), w') /\
    heap w' = [] /\
    registry w' = ∅.
Proof.
  destruct (@scheduleBackups_propagates_constructor_error Script daily_cron
              en_US (boot {[ "BACKUP_CRON" := "every day" ]} all_well)
              (Error "Invalid cron pattern"))
    as (w' & E & _ & _ & H & R).
  - vm_compute. discriminate.
  - vm_compute. reflexivity.
  - by exists w'.
Defined.

Lemma formatGMT8_manila_12_hour_display_witness :
  four_digit_year (june_15 + 8 * msPerHour) /\
  reads_as june_15 (8 * msPerHour) 2024 6 15 6 0 0 true /\
  @formatGMT8 Script en_US (ValidDate june_15) (boot ∅ all_well)
  = (Ok (display_12h "Jun" 15 2024 6 0 0 true), boot ∅ all_well) /\
  String.length (display_12h "Jun" 15 2024 6 0 0 true) = 25%nat.
Proof.
  assert (four_digit_year (june_15 + 8 * msPerHour)) as Hrange.
  { unfold four_digit_year. vm_compute. split; [discriminate | reflexivity]. }
  assert (reads_as june_15 (8 * msPerHour) 2024 6 15 6 0 0 true) as Hreads.
  { unfold reads_as, calendar_date.
    repeat split; vm_compute; first [reflexivity | discriminate]. }
  split; [exact Hrange|]. split; [exact Hreads|].
  destruct (proj1 (@formatGMT8_manila_12_hour_display Script daily_cron)
              june_15 (boot ∅ all_well))
    as (y & m & d & hh & mi & ss & pm & mon & E & Hmon & _ & _ & _ & _
        & _ & _ & Hlen & _ & Hunique).
  pose proof (Hunique 2024 6 15 6 0 0 true Hreads) as Hsame.
  injection Hsame as <- <- <- <- <- <- <-.
  injection Hmon as <-.
  split; [exact E|]. exact (Hlen Hrange).
Defined.

Lemma getScheduleStatus_report_ignores_enabled_flag_witness :
  exists (r : StatusReport) (w' : World Script),
    getScheduleStatus en_US
      (with_job {[ "BACKUP_ENABLED" := "false" ]} sample_job)
    = (Ok (Report r), w') /\
    sr_enabled r = true.
Proof.
  eexists _, _. split; [vm_compute; reflexivity|].
  refine (proj1 (getScheduleStatus_report_ignores_enabled_flag en_US
                   (with_job {[ "BACKUP_ENABLED" := "false" ]} sample_job)
                   _ _ _)).
  vm_compute. reflexivity.
Defined.

(* ===================================================================== *)
(** * Further properties of the methods                                   *)
(* ===================================================================== *)

Ltac frame_close :=
  repeat split; first [reflexivity | cbn; lia | by repeat constructor].

Section Further.
Context {X : Type}.
Context {database : DatabaseService X} {backup : BackupService X}.
Context {cron : CronLibrary}.

Lemma or_default_given (v : option string) (d c : string) :
  given_or v d c -> or_default v d = c.
Proof.
  intros [s d' Hs | d' | d']; cbn; [|reflexivity..].
  destruct (String.eqb_spec s ""); [done | reflexivity].
Qed.

(** X1. On the enabled path the constructor receives [BACKUP_CRON] and
    [BACKUP_TIMEZONE] as given when they are non-empty strings, and the
    defaults [0 2 * * *] and [UTC] when they are unset or empty. *)
Theorem scheduleBackups_schedule_source (icu : LocaleData) (w : World X)
    (c z : string) :
  env w !! "BACKUP_ENABLED" <> Some "false" ->
  given_or (env w !! "BACKUP_CRON") "0 2 * * *" c ->
  given_or (env w !! "BACKUP_TIMEZONE") "UTC" z ->
  exists (r : result unit) (w' : World X) (rest : list Event),
    scheduleBackups icu w = (r, w') /\
    events w' = events w ++ EvNewCronJob c z false :: rest.
Proof.
  intros Hon Hc Hz.
  destruct (scheduleBackups_enabled icu w Hon) as (r & w' & rest & E & T & _).
  exists r, w', rest. split; [exact E|].
  rewrite T. unfold configured_cron, configured_timezone.
  by rewrite (or_default_given _ _ _ Hc), (or_default_given _ _ _ Hz).
Qed.

(** [scheduleBackups] on the enabled path, step by step. *)
Lemma scheduleBackups_outcome (icu : LocaleData) (w : World X) :
  env w !! "BACKUP_ENABLED" <> Some "false" ->
  cron_rejects (configured_cron (env w)) (configured_timezone (env w)) = None ->
  let expr := configured_cron (env w) in
  let tz := configured_timezone (env w) in
  let made :=
    set_heap (heap w ++ [fresh_job expr tz (clock w)])
      (set_events (events w ++ [EvNewCronJob expr tz false;
                                EvNextDate (length (heap w))])
         (set_console (console w ++ [scheduling_line expr tz]) w)) in
  (forall e, next_date_unusable (cron_next expr tz (clock w)) e ->
     scheduleBackups icu w = (Throw e, made)) /\
  (forall v tn nowLocal nextLocal,
     cron_next expr tz (clock w) = Ok v ->
     date_of v = Some (ValidDate tn) ->
     toLocaleString icu formatGMT8_options (ValidDate (clock w)) = Ok nowLocal ->
     toLocaleString icu formatGMT8_options (ValidDate tn) = Ok nextLocal ->
     scheduleBackups icu w
     = (Ok tt,
        set_console
          (console w ++ [scheduling_line expr tz; initialized_line;
                         server_time_line (iso_string (clock w)) nowLocal;
                         next_run_line (iso_string tn) nextLocal]) made)).
Proof.
  intros Hon Hrej expr tz made. subst made expr tz.
  apply strict_neq_true in Hon.
  unfold scheduleBackups, new_CronJob, nextDate, formatGMT8,
    toJSDate_unless_Date, toISOString, fresh_job.
  unfold_monad; cbn. rewrite Hon. cbn.
  fold (configured_cron (env w)). fold (configured_timezone (env w)).
  rewrite Hrej. cbn. rewrite list_lookup_middle by done. cbn.
  split.
  - intros e Hbad.
    destruct (cron_next _ _ _) as [[|d|d|]|e0]; inversion Hbad; subst; cbn;
      rewrite ?app_cons_assoc; reflexivity.
  - intros v tn nowLocal nextLocal Hn Hv Hnow Hnext.
    rewrite Hn. cbn.
    destruct v as [|d|d|]; cbn in Hv; try discriminate;
      injection Hv as ->; cbn; rewrite Hnow; cbn; rewrite Hnext;
      unfold_monad; cbn;
      rewrite ?app_cons_assoc, <- ?app_assoc; reflexivity.
Qed.


(** X3. [scheduleBackups] does not guard the next date as
    [getScheduleStatus] does. When [job.nextDate()] throws, or answers
    [null] or a value without [toJSDate], the error leaves
    [scheduleBackups]: the job has been constructed by then, only the
    schedule line has been written, and the registry is as before. *)
Theorem scheduleBackups_unguarded_next_date (icu : LocaleData) (w : World X)
    (e : Exn) :
  env w !! "BACKUP_ENABLED" <> Some "false" ->
  cron_rejects (configured_cron (env w)) (configured_timezone (env w)) = None ->
  next_date_unusable
    (cron_next (configured_cron (env w)) (configured_timezone (env w))
       (clock w)) e ->
  exists w' : World X,
    scheduleBackups icu w = (Throw e, w') /\
    heap w'
    = heap w ++ [fresh_job (configured_cron (env w))
                   (configured_timezone (env w)) (clock w)] /\
    console w'
    = console w ++ [scheduling_line (configured_cron (env w))
                      (configured_timezone (env w))] /\
    registry w' = registry w.
Proof.
  intros Hon Hrej Hbad.
  destruct (scheduleBackups_outcome icu w Hon Hrej) as [Hthrow _].
  rewrite (Hthrow e Hbad).
  eexists. split; [reflexivity|]. repeat split; reflexivity.
Qed.

(** X4. [scheduleBackups] runs no backup and touches no existing job: in
    every world and on every outcome it calls none of the database and
    backup collaborators, leaves their state, the environment and the
    registry alone, keeps the job objects that exist, and adds at most
    one, which is not running and whose handler is the backup
    callback. *)
Theorem scheduleBackups_runs_no_backup (icu : LocaleData) (w : World X) :
  exists (made : list CronJob) (t : list Event),
    heap (scheduleBackups icu w).2 = heap w ++ made /\
    (length made <= 1)%nat /\
    Forall (fun job => job_running job = false /\ job_onTick job = BackupTick)
      made /\
    events (scheduleBackups icu w).2 = events w ++ t /\
    forallb (fun e => negb (is_collaborator_call e)) t = true /\
    ext (scheduleBackups icu w).2 = ext w /\
    env (scheduleBackups icu w).2 = env w /\
    registry (scheduleBackups icu w).2 = registry w.
Proof.
  unfold scheduleBackups, new_CronJob, nextDate, formatGMT8,
    toJSDate_unless_Date, toLocaleString, toISOString.
  unfold_monad; cbn.
  destruct (strict_neq _ _); cbn;
    [|exists [], []; rewrite !app_nil_r; frame_close].
  destruct (cron_rejects _ _) as [e|]; cbn;
    [eexists [], [_]; rewrite !app_nil_r; frame_close|].
  rewrite list_lookup_middle by done. cbn.
  destruct (cron_next _ _ _) as [[|[tn|]|[tn|]|]|en]; cbn;
    try (eexists [_], [_; _]; rewrite ?app_cons_assoc; frame_close);
    destruct (zone_offset_minutes icu "Asia/Manila"); cbn;
    eexists [_], [_; _]; rewrite ?app_cons_assoc; frame_close.
Qed.

(** X5. A manual trigger leaves the scheduler alone: registry, job
    objects and environment are the same after it, whether it succeeds
    or throws. *)
Theorem triggerManualBackup_leaves_scheduler (w : World X) :
  registry (triggerManualBackup w).2 = registry w /\
  heap (triggerManualBackup w).2 = heap w /\
  env (triggerManualBackup w).2 = env w.
Proof.
  unfold triggerManualBackup, databaseService_getClient,
    backupService_createFullBackup, backupService_uploadToSupabase.
  unfold_monad; cbn.
  collaborator_cases; done.
Qed.

(** X6. A manual trigger makes the calls of a scheduled firing, in the
    same order and with the same outcomes, minus the prune: from the
    same world, its calls are those of the firing with
    [cleanOldBackups] left out, and it succeeds exactly when the firing
    gets as far as [cleanOldBackups]. *)
Theorem triggerManualBackup_is_tick_without_prune (w : World X) :
  exists tm tt : list Event,
    events (triggerManualBackup w).2 = events w ++ tm /\
    events (scheduledBackupTick w).2 = events w ++ tt /\
    tm = List.filter (fun e => negb (is_cleanOldBackups e)) tt /\
    ((exists p, (triggerManualBackup w).1 = Ok p) <->
     (exists r, last tt = Some (EvCleanOldBackups 30 r))).
Proof.
  unfold triggerManualBackup, scheduledBackupTick, databaseService_getClient,
    backupService_createFullBackup, backupService_uploadToSupabase,
    backupService_cleanOldBackups.
  unfold_monad; cbn.
  collaborator_cases;
    eexists _, _;
    (split; [rewrite <- ?app_assoc; cbn [app]; reflexivity|]);
    (split; [rewrite <- ?app_assoc; cbn [app]; reflexivity|]);
    (split; [reflexivity|]); cbn;
    split; intros [? [=]]; eauto.
Qed.

(** ** Stopping *)

(** What [stopScheduledBackups] leaves behind. *)
Lemma stopScheduledBackups_frame (w : World X) :
  heap (stopScheduledBackups w).2 = heap_after_stop w /\
  registry (stopScheduledBackups w).2 = registry w /\
  env (stopScheduledBackups w).2 = env w /\
  clock (stopScheduledBackups w).2 = clock w /\
  ext (stopScheduledBackups w).2 = ext w /\
  exists t : list Event,
    events (stopScheduledBackups w).2
    = events w ++ EvGetCronJob "database-backup" :: t /\
    (t = [] \/ exists j, registry w !! "database-backup" = Some j /\ t = [EvStop j]).
Proof.
  unfold stopScheduledBackups, getCronJob, stop, heap_after_stop.
  unfold_monad; cbn.
  destruct (registry w !! "database-backup") as [j|] eqn:Hreg; cbn;
    [|repeat split; exists []; split; [reflexivity | by left]].
  destruct (heap w !! j) as [job|] eqn:Hjob; cbn;
    [destruct (job_stop job) as [|[[]|e]|e]; cbn|];
    repeat split; exists [EvStop j]; rewrite ?app_cons_assoc;
    (split; [reflexivity | right; by exists j]).
Qed.

(** X7. With a job under the key whose [stop] succeeds,
    [stopScheduledBackups] looks the job up, calls [stop] on it once,
    and confirms on the console. The job is halted, not removed: it is
    still registered under the key afterwards. *)
Theorem stopScheduledBackups_halts_registered_job (w : World X) (j : nat)
    (job : CronJob) :
  registry w !! "database-backup" = Some j ->
  heap w !! j = Some job ->
  stop_succeeds job ->
  exists w' : World X,
    stopScheduledBackups w = (Ok tt, w') /\
    events w' = events w ++ [EvGetCronJob "database-backup"; EvStop j] /\
    console w' = console w ++ [stop_succeeded] /\
    registry w' = registry w /\
    registered_job w' = Some (halted job).
Proof.
  intros Hreg Hjob Hstop.
  assert (<[j := halted job]> (heap w) !! j = Some (halted job)) as Hlook.
  { apply list_lookup_insert_eq. by eapply lookup_lt_Some. }
  unfold stopScheduledBackups, getCronJob, stop.
  unfold_monad; cbn. rewrite Hreg. cbn. rewrite Hjob. cbn.
  destruct Hstop as [-> | ->]; cbn;
    eexists; (split; [reflexivity|]); cbn;
    rewrite ?app_cons_assoc;
    (split; [reflexivity|]); (split; [reflexivity|]);
    (split; [reflexivity|]);
    unfold registered_job; cbn; by rewrite Hreg.
Qed.

(** X8. [stopScheduledBackups] reaches no further than the one job: in
    every world it leaves the registry, the environment and the
    collaborators' state as they were, makes no call but the lookup and
    at most one [stop] on the job found, keeps the number of job
    objects, and leaves every job other than the one under the key
    untouched. *)
Theorem stopScheduledBackups_touches_one_job (w : World X) :
  registry (stopScheduledBackups w).2 = registry w /\
  env (stopScheduledBackups w).2 = env w /\
  ext (stopScheduledBackups w).2 = ext w /\
  length (heap (stopScheduledBackups w).2) = length (heap w) /\
  (forall i : nat,
      registry w !! "database-backup" <> Some i ->
      heap (stopScheduledBackups w).2 !! i = heap w !! i) /\
  exists t : list Event,
    events (stopScheduledBackups w).2
    = events w ++ EvGetCronJob "database-backup" :: t /\
    (t = [] \/ exists j, registry w !! "database-backup" = Some j /\ t = [EvStop j]).
Proof.
  destruct (stopScheduledBackups_frame w) as (H & R & E & _ & Y & T).
  split; [exact R|]. split; [exact E|]. split; [exact Y|].
  rewrite H. unfold heap_after_stop.
  split; [|split; [|exact T]].
  - repeat case_match; by rewrite ?length_insert.
  - intros i Hi. repeat case_match; try done;
      apply list_lookup_insert_ne; congruence.
Qed.

(** X9. Stopping twice is stopping once: after a second call the job
    objects and the registry are what the first call left. *)
Theorem stopScheduledBackups_twice (w : World X) :
  heap (stopScheduledBackups (stopScheduledBackups w).2).2
  = heap (stopScheduledBackups w).2 /\
  registry (stopScheduledBackups (stopScheduledBackups w).2).2
  = registry (stopScheduledBackups w).2.
Proof.
  destruct (stopScheduledBackups_frame w) as (H1 & R1 & _).
  destruct (stopScheduledBackups_frame (stopScheduledBackups w).2)
    as (H2 & R2 & _).
  split; [|exact R2].
  rewrite H2. unfold heap_after_stop at 1. rewrite R1, H1.
  unfold heap_after_stop.
  destruct (registry w !! "database-backup") as [j|]; [|reflexivity].
  destruct (heap w !! j) as [job|] eqn:Hjob; [|by rewrite Hjob].
  assert (<[j := halted job]> (heap w) !! j = Some (halted job)) as Hlook.
  { apply list_lookup_insert_eq. by eapply lookup_lt_Some. }
  destruct (job_stop job) as [|p|e] eqn:Hstop;
    rewrite ?Hlook, ?Hjob; cbn [halted job_stop]; rewrite Hstop;
    rewrite ?list_insert_insert_eq; reflexivity.
Qed.

(** ** Status *)


(** X11. A job under the key does not by itself give a report. When its
    next fire time cannot be read ([nextDate()] throws, the value has no
    [toJSDate], or the date is invalid) and [lastDate()] returns,
    [getScheduleStatus] answers with the degraded record, whose text
    says the scheduler is not initialized, and writes the error it
    caught. *)
Theorem getScheduleStatus_unreadable_next_date (icu : LocaleData)
    (w : World X) (j : nat) (job : CronJob) (l : CronDate) (e : Exn) :
  registry w !! "database-backup" = Some j ->
  heap w !! j = Some job ->
  fire_time_unreadable (job_nextDate job) e ->
  job_lastDate job = Ok l ->
  exists w' : World X,
    getScheduleStatus icu w = (Ok (degraded_record (env w)), w') /\
    console w' = console w ++ [status_failed e].
Proof.
  intros Hreg Hjob Hbad Hl.
  unfold getScheduleStatus, getCronJob, nextDate, lastDate, formatGMT8,
    toJSDate_unless_Date, toISOString, truthy.
  unfold_monad; cbn. rewrite Hreg. cbn. rewrite Hjob. cbn.
  destruct (job_nextDate job) as [vn|en]; inversion Hbad as [? | | v Hv]; subst;
    cbn; rewrite ?Hjob, ?Hl; cbn.
  - eexists; split; reflexivity.
  - destruct vn as [|[|]|[|]|]; cbn in Hv; try discriminate;
      cbn; eexists; split; reflexivity.
  - eexists; split; reflexivity.
Qed.

(** The status is a function of the environment, the clock and the fire
    times of the job under the key: the console, the trace of calls and
    the job's other fields do not enter it. *)
Lemma getScheduleStatus_depends_on (icu : LocaleData) (w w' : World X) :
  env w' = env w ->
  clock w' = clock w ->
  fire_times <$> registered_job w' = fire_times <$> registered_job w ->
  (getScheduleStatus icu w').1 = (getScheduleStatus icu w).1.
Proof.
  intros He Hc Hobs. revert Hobs.
  unfold getScheduleStatus, getCronJob, nextDate, lastDate, formatGMT8,
    toJSDate_unless_Date, toLocaleString, toISOString, truthy,
    registered_job, fire_times.
  unfold_monad; cbn. rewrite He, Hc.
  destruct (registry w !! "database-backup") as [j|];
    destruct (registry w' !! "database-backup") as [j'|]; cbn;
    [destruct (heap w !! j) as [job|] eqn:Hjob;
     destruct (heap w' !! j') as [job'|] eqn:Hjob'
    |destruct (heap w !! j) as [job|] eqn:Hjob
    |destruct (heap w' !! j') as [job'|] eqn:Hjob'|];
    cbn; intros Hobs; try discriminate; try reflexivity.
  injection Hobs as Hn Hl. rewrite Hn.
  destruct (job_nextDate job) as [[|[tn|]|[tn|]|]|en]; cbn;
    rewrite ?Hjob, ?Hjob'; cbn; rewrite ?Hl; try reflexivity;
    destruct (job_lastDate job) as [[|[tl|]|[tl|]|]|el]; cbn;
    try reflexivity;
    destruct (zone_offset_minutes icu "Asia/Manila") as [off|]; cbn;
    reflexivity.
Qed.

Lemma scheduleBackups_keeps_env (icu : LocaleData) (w : World X) :
  env (scheduleBackups icu w).2 = env w.
Proof.
  unfold scheduleBackups, new_CronJob, nextDate, formatGMT8,
    toJSDate_unless_Date, toLocaleString, toISOString.
  unfold_monad; cbn.
  destruct (strict_neq _ _); cbn; [|reflexivity].
  destruct (cron_rejects _ _) as [e|]; cbn; [reflexivity|].
  rewrite list_lookup_middle by done. cbn.
  destruct (cron_next _ _ _) as [[|[tn|]|[tn|]|]|en]; cbn; try reflexivity;
    destruct (zone_offset_minutes icu "Asia/Manila"); reflexivity.
Qed.

(** X12. Scheduling and then asking for the status: in a world where
    nothing is registered under the key, [getScheduleStatus] called
    after [scheduleBackups] answers with the degraded record, whether
    scheduling was disabled, failed or went through. *)
Theorem getScheduleStatus_after_scheduleBackups (icu : LocaleData)
    (w : World X) :
  registry w !! "database-backup" = None ->
  (getScheduleStatus icu (scheduleBackups icu w).2).1
  = Ok (degraded_record (env w)).
Proof.
  intros Hnone.
  pose proof (scheduleBackups_keeps_registry icu w) as Hreg.
  pose proof (scheduleBackups_keeps_env icu w) as Henv.
  destruct (getScheduleStatus_cases icu (scheduleBackups icu w).2)
    as (w' & [(r & E & _ & _ & _ & Hsome & _) | (e & E & _)]).
  - rewrite Hreg, Hnone in Hsome. by destruct Hsome.
  - by rewrite E, Henv.
Qed.

(** X13. The status does not show that the job was stopped: asked after
    [stopScheduledBackups], [getScheduleStatus] returns what it would
    have returned before, [enabled: true] and the next run included. *)
Theorem getScheduleStatus_after_stop (icu : LocaleData) (w : World X) :
  (getScheduleStatus icu (stopScheduledBackups w).2).1
  = (getScheduleStatus icu w).1.
Proof.
  destruct (stopScheduledBackups_frame w) as (H & R & E & C & _).
  apply getScheduleStatus_depends_on; [exact E | exact C |].
  unfold registered_job. rewrite R, H. unfold heap_after_stop.
  destruct (registry w !! "database-backup") as [j|]; [|reflexivity].
  destruct (heap w !! j) as [job|] eqn:Hjob; [|by rewrite Hjob].
  assert (<[j := halted job]> (heap w) !! j = Some (halted job)) as Hlook.
  { apply list_lookup_insert_eq. by eapply lookup_lt_Some. }
  destruct (job_stop job); rewrite ?Hlook, ?Hjob; reflexivity.
Qed.

(** X14. The report is about the environment, not about the job: a job
    under the key that was built for another cron expression or time
    zone, has another handler, or is not running, gives the same status
    as long as its fire times are the same. *)
Theorem getScheduleStatus_ignores_job_schedule (icu : LocaleData)
    (w : World X) (j : nat) (job job' : CronJob) :
  registry w !! "database-backup" = Some j ->
  heap w !! j = Some job ->
  fire_times job' = fire_times job ->
  (getScheduleStatus icu (set_heap (<[j := job']> (heap w)) w)).1
  = (getScheduleStatus icu w).1.
Proof.
  intros Hreg Hjob Htimes.
  apply getScheduleStatus_depends_on; [reflexivity | reflexivity |].
  unfold registered_job; cbn. rewrite Hreg, Hjob.
  rewrite list_lookup_insert_eq by (by eapply lookup_lt_Some).
  cbn. by rewrite Htimes.
Qed.

End Further.

(** ** Instances of the further properties *)

Lemma scheduleBackups_schedule_source_witness :
  exists (r : result unit) (w' : World Script) (rest : list Event),
    @scheduleBackups Script daily_cron en_US
      (boot {[ "BACKUP_CRON" := "30 4 * * *" ]} all_well) = (r, w') /\
    events w' = EvNewCronJob "30 4 * * *" "UTC" false :: rest.
Proof.
  apply (@scheduleBackups_schedule_source Script daily_cron en_US
           (boot {[ "BACKUP_CRON" := "30 4 * * *" ]} all_well)
           "30 4 * * *" "UTC").
  - vm_compute. discriminate.
  - cbn [env boot]. rewrite lookup_singleton_eq. by constructor.
  - cbn [env boot]. rewrite lookup_singleton_ne by done. constructor.
Defined.


Lemma scheduleBackups_unguarded_next_date_witness :
  exists w' : World Script,
    @scheduleBackups Script dateless_cron en_US (boot ∅ all_well)
    = (Throw (TypeError "Cannot read properties of null (reading 'toJSDate')"),
       w') /\
    length (heap w') = 1%nat /\
    registry w' = ∅.
Proof.
  destruct (@scheduleBackups_unguarded_next_date Script dateless_cron en_US
              (boot ∅ all_well)
              (TypeError "Cannot read properties of null (reading 'toJSDate')"))
    as (w' & E & H & _ & R).
  - vm_compute. discriminate.
  - reflexivity.
  - apply unusable_null.
  - exists w'. split; [exact E|]. by rewrite H, R.
Defined.

Lemma stopScheduledBackups_halts_registered_job_witness :
  exists w' : World Script,
    stopScheduledBackups (with_job ∅ seasoned_job) = (Ok tt, w') /\
    console w' = [stop_succeeded] /\
    registered_job w' = Some (halted seasoned_job).
Proof.
  destruct (stopScheduledBackups_halts_registered_job
              (with_job ∅ seasoned_job) 0%nat seasoned_job)
    as (w' & E & _ & C & _ & J).
  - reflexivity.
  - reflexivity.
  - by right.
  - by exists w'.
Defined.

Lemma stopScheduledBackups_touches_one_job_witness :
  registry crowded !! "database-backup" <> Some 1%nat /\
  heap (stopScheduledBackups crowded).2 !! 1%nat = Some seasoned_job.
Proof.
  assert (registry crowded !! "database-backup" <> Some 1%nat) as Hne
    by (vm_compute; discriminate).
  split; [exact Hne|].
  destruct (stopScheduledBackups_touches_one_job crowded)
    as (_ & _ & _ & _ & Hother & _).
  by rewrite (Hother 1%nat Hne).
Defined.


Lemma getScheduleStatus_unreadable_next_date_witness :
  exists w' : World Script,
    getScheduleStatus en_US (with_job ∅ broken_job)
    = (Ok (degraded_record ∅), w') /\
    console w' = [status_failed (RangeError "Invalid time value")].
Proof.
  apply (getScheduleStatus_unreadable_next_date en_US
           (with_job ∅ broken_job) 0%nat broken_job CronNull
           (RangeError "Invalid time value")).
  - reflexivity.
  - reflexivity.
  - by apply (unreadable_invalid (CronNative InvalidDate)).
  - reflexivity.
Defined.

Lemma getScheduleStatus_after_scheduleBackups_witness :
  (getScheduleStatus en_US
     (@scheduleBackups Script daily_cron en_US (boot ∅ all_well)).2).1
  = Ok (degraded_record ∅).
Proof.
  apply (@getScheduleStatus_after_scheduleBackups Script daily_cron en_US
           (boot ∅ all_well)).
  reflexivity.
Defined.

Lemma getScheduleStatus_ignores_job_schedule_witness :
  (getScheduleStatus en_US (with_job ∅ rescheduled_job)).1
  = (getScheduleStatus en_US (with_job ∅ sample_job)).1.
Proof.
  apply (getScheduleStatus_ignores_job_schedule en_US
           (with_job ∅ sample_job) 0%nat sample_job rescheduled_job);
    reflexivity.
Defined.
